(** * vessel_efficiency_app: scenario generation and financial evaluation

    A shallow embedding of [vessel_efficiency_app.py] and the proofs of the
    properties its specification states.

    Conventions of the embedding.
    - Python [int] is [Z].
    - The source is embedded twice.  The exact reading, first, fixes the
      numbers to exact rationals [Q]: rounding is not modelled, numeric
      equalities are stated with [==] ([Qeq]), and its theorems are about
      the program on exact numbers.  The module [Py], second, embeds the
      same source over the arithmetic it is run on, the interface
      [Num.PyNum], with exact rationals and IEEE 754 binary64 (the
      [float] of the script, on primitive floats) as instances.  The exact
      reading is [Py] over exact rationals ([py_run_exact],
      [py_npv_exact], [py_payback_exact]).  What depends on rounding,
      overflow or underflow is stated over [Py].
    - The exceptions the arithmetic and the dictionaries of the program
      can raise are explicit: [KeyError] for a subscript on a missing key,
      [ZeroDivisionError] for [/] with a zero divisor and, in binary64,
      [OverflowError] for a [**] whose result is out of range.  Fallible
      code lives in the [result] monad.
    - A Python [dict] is an association list in insertion order, because the
      program iterates over [EMISSION_FACTORS] and over [npv_summary].
    - The Streamlit widgets are the inputs of the script ([Inputs]); the
      script body is [run]; plotting is outside the model. *)

From Stdlib Require Import String ZArith QArith Qpower Qfield List Bool Lia Lqa.
From Stdlib Require Import DecimalString.
From Stdlib Require Floats.
Import ListNotations.

Local Open Scope Z_scope.
Local Open Scope Q_scope.

(** ** Exceptions and the result monad *)

Inductive exn : Type :=
| KeyError (key : string)
| ZeroDivisionError
| OverflowError.

Inductive result (A : Type) : Type :=
| Ok (a : A)
| Raise (e : exn).

Arguments Ok {A} a.
Arguments Raise {A} e.

Definition bind {A B : Type} (m : result A) (k : A -> result B) : result B :=
  match m with
  | Ok a => k a
  | Raise e => Raise e
  end.

Notation "x <- m ;; k" := (bind m (fun x => k))
  (at level 61, m at next level, right associativity).

(** ** Python primitives used by the script *)

(** [x / y] on numbers: raises on a zero divisor. *)
Definition py_div (x y : Q) : result Q :=
  if Qeq_bool y 0 then Raise ZeroDivisionError else Ok (x / y).

(** [x ** n] on exact numbers ([Py.pow] is [**] on any numbers); every
    exponent of the script is a non-negative [int]
    ([year % DRYDOCK_CYCLE] and an [enumerate] index), where [0 ** 0 = 1]. *)
Definition py_pow (x : Q) (n : Z) : Q := x ^ n.

(** [str(n)] for an [int], as used by an f-string. *)
Definition str (n : Z) : string := NilZero.string_of_int (Z.to_int n).

(** [range(n)]. *)
Definition range (n : Z) : list Z := map Z.of_nat (seq 0 (Z.to_nat n)).

(** [enumerate(l)], with its running index. *)
Fixpoint enumerate_from {A : Type} (i : Z) (l : list A) : list (Z * A) :=
  match l with
  | [] => []
  | x :: rest => (i, x) :: enumerate_from (i + 1)%Z rest
  end.

Definition enumerate {A : Type} (l : list A) : list (Z * A) :=
  enumerate_from 0%Z l.

(** [sum(f(x) for x in xs)]: the generator is consumed left to right, the
    accumulator starts at [0], and the first item that raises aborts. *)
Fixpoint sum_gen {A : Type} (f : A -> result Q) (xs : list A) (acc : Q)
  : result Q :=
  match xs with
  | [] => Ok acc
  | x :: rest => v <- f x ;; sum_gen f rest (acc + v)
  end.

(** *** Dictionaries *)

Definition dict (V : Type) : Type := list (string * V).

Fixpoint dict_get {V : Type} (d : dict V) (k : string) : option V :=
  match d with
  | [] => None
  | (k', v) :: rest => if String.eqb k' k then Some v else dict_get rest k
  end.

(** [d[k]]. *)
Definition getitem {V : Type} (d : dict V) (k : string) : result V :=
  match dict_get d k with
  | Some v => Ok v
  | None => Raise (KeyError k)
  end.

(** [d[k] = v]: overwrite in place, or append a new key. *)
Fixpoint dict_set {V : Type} (d : dict V) (k : string) (v : V) : dict V :=
  match d with
  | [] => [(k, v)]
  | (k', v') :: rest =>
      if String.eqb k' k then (k', v) :: rest
      else (k', v') :: dict_set rest k v
  end.

Definition keys {V : Type} (d : dict V) : list string := map fst d.

(** ** Constants *)

Definition EMISSION_FACTORS : dict Q :=
  [ ("VLSFO"%string, 3114 # 1000);
    ("MGO"%string, 3206 # 1000);
    ("LNG"%string, 2750 # 1000);
    ("Methanol"%string, 1375 # 1000);
    ("Ammonia"%string, 0 # 1000) ].

Definition FUEL_PRICES : dict Q :=
  [ ("VLSFO"%string, 600 # 1);
    ("MGO"%string, 700 # 1);
    ("LNG"%string, 800 # 1);
    ("Methanol"%string, 900 # 1);
    ("Ammonia"%string, 1000 # 1) ].

Definition DISCOUNT_RATE : Q := 7 # 100.
Definition YEARS : Z := 10.
Definition EFFICIENCY_DEGRADATION_RATE : Q := 1 # 100.
Definition DRYDOCK_CYCLE : Z := 5.

(** ** The model functions *)

Record Vessel : Type := mkVessel {
  dwt : Q;
  fuel_type : string;
  annual_fuel_consumption : Q
}.

Definition calculate_emissions (fuel_type : string) (fuel_consumed : Q)
  : result Q :=
  factor <- getitem EMISSION_FACTORS fuel_type ;;
  Ok (fuel_consumed * factor).

Definition calculate_carbon_tax (emissions tax_rate : Q) : Q :=
  emissions * tax_rate.

Definition apply_tech_efficiency_reduction (base_fuel efficiency_gain : Q)
  : Q :=
  base_fuel * (1 - efficiency_gain).

Definition get_degradation_multiplier (year : Z) : Q :=
  py_pow (1 + EFFICIENCY_DEGRADATION_RATE) (year mod DRYDOCK_CYCLE).

Definition calculate_npv (cash_flows : list Q) (discount_rate : Q)
  : result Q :=
  sum_gen (fun '(i, cf) => py_div cf (py_pow (1 + discount_rate) i))
          (enumerate cash_flows) 0.

(** What [calculate_payback_period] returns: an [int] or a [str]. *)
Inductive pyval : Type :=
| PyInt (n : Z)
| PyStr (s : string).

(** The string [f"> {YEARS}"]. *)
Definition exceeds_horizon : pyval := PyStr ("> " ++ str YEARS).

(** The loop of [calculate_payback_period] on exact numbers
    ([Py.payback_loop] is the loop on any numbers). *)
Fixpoint payback_loop (items : list (Z * Q)) (cumulative : Q) : pyval :=
  match items with
  | [] => exceeds_horizon
  | (i, cf) :: rest =>
      let cumulative := cumulative + cf in
      if Qle_bool 0 cumulative then PyInt (i + 1)
      else payback_loop rest cumulative
  end.

Definition calculate_payback_period (cash_flows : list Q) : pyval :=
  payback_loop (enumerate cash_flows) 0.

(** ** The script *)

(** The values collected from the sidebar widgets. *)
Record Inputs : Type := mkInputs {
  ui_dwt : Q;
  ui_fuel_type : string;
  ui_annual_consumption : Q;
  ui_tax_rate : Q;
  ui_opex : Q;
  ui_capex : Q;
  ui_efficiency_gain : Q
}.

(** The three lists a scenario loop fills: [emissions, costs, cash_flows]. *)
Record series : Type := mkSeries {
  emissions : list Q;
  costs : list Q;
  cash_flows : list Q
}.

Definition empty_series : series := mkSeries [] [] [].

(** The local variables of one loop iteration. *)
Record year_locals : Type := mkYear {
  mult : Q;
  fuel : Q;
  e : Q;
  t : Q;
  fc : Q;
  total : Q
}.

(** The three [append] calls that end every loop body. *)
Definition append_year (s : series) (y : year_locals) : series :=
  mkSeries (emissions s ++ [e y]) (costs s ++ [total y])
           (cash_flows s ++ [- total y]).

(** [for x in xs: body], threading the state and stopping at a raise. *)
Fixpoint for_in {A S : Type} (xs : list A) (body : A -> S -> result S)
  (s : S) : result S :=
  match xs with
  | [] => Ok s
  | x :: rest => s' <- body x s ;; for_in rest body s'
  end.

(** [capex if year == 0 else 0]. *)
Definition capex_at (capex : Q) (year : Z) : Q :=
  if Z.eqb year 0 then capex else 0.

(** The value stored under a label of [scenarios]. *)
Record scenario : Type := mkScenario {
  sc_emissions : list Q;
  sc_costs : list Q
}.

(** The three dictionaries the script fills. *)
Record summaries : Type := mkSummaries {
  scenarios : dict scenario;
  npv_summary : dict Q;
  payback_summary : dict pyval
}.

Section Script.

Variable ui : Inputs.

Let tax_rate := ui_tax_rate ui.
Let opex := ui_opex ui.
Let capex := ui_capex ui.
Let efficiency_gain := ui_efficiency_gain ui.

Definition vessel : Vessel :=
  mkVessel (ui_dwt ui) (ui_fuel_type ui) (ui_annual_consumption ui).

(** Body of the Baseline loop. *)
Definition baseline_year (year : Z) : result year_locals :=
  let mult := get_degradation_multiplier year in
  let fuel := annual_fuel_consumption vessel * mult in
  e <- calculate_emissions (fuel_type vessel) fuel ;;
  let t := calculate_carbon_tax e tax_rate in
  price <- getitem FUEL_PRICES (fuel_type vessel) ;;
  let fc := fuel * price in
  let total := fc + t + opex in
  Ok (mkYear mult fuel e t fc total).

(** Body of the Tech Upgrade loop, on exact numbers
    ([Py.tech_upgrade_year] is the body on any numbers). *)
Definition tech_upgrade_year (year : Z) : result year_locals :=
  let mult := get_degradation_multiplier year in
  let fuel :=
    apply_tech_efficiency_reduction
      (annual_fuel_consumption vessel * mult) efficiency_gain in
  e <- calculate_emissions (fuel_type vessel) fuel ;;
  let t := calculate_carbon_tax e tax_rate in
  price <- getitem FUEL_PRICES (fuel_type vessel) ;;
  let fc := fuel * price in
  let total := fc + t + opex + capex_at capex year in
  Ok (mkYear mult fuel e t fc total).

(** Body of the inner loop of the alternative-fuel loop. *)
Definition alt_fuel_year (alt_fuel : string) (year : Z)
  : result year_locals :=
  let mult := get_degradation_multiplier year in
  let fuel := annual_fuel_consumption vessel * mult in
  e <- calculate_emissions alt_fuel fuel ;;
  let t := calculate_carbon_tax e tax_rate in
  price <- getitem FUEL_PRICES alt_fuel ;;
  let fc := fuel * price in
  let total := fc + t + opex + capex_at capex year in
  Ok (mkYear mult fuel e t fc total).

(** [emissions, costs, cash_flows = [], [], []] followed by
    [for year in range(YEARS): ...]. *)
Definition year_loop (body : Z -> result year_locals) : result series :=
  for_in (range YEARS)
         (fun year s => y <- body year ;; Ok (append_year s y))
         empty_series.

Definition baseline_series : result series := year_loop baseline_year.
Definition tech_upgrade_series : result series :=
  year_loop tech_upgrade_year.
Definition alt_fuel_series (alt_fuel : string) : result series :=
  year_loop (alt_fuel_year alt_fuel).

(** One iteration of [for alt_fuel in EMISSION_FACTORS]. *)
Definition alt_fuel_step (alt_fuel : string) (st : summaries)
  : result summaries :=
  if String.eqb alt_fuel (fuel_type vessel) then Ok st
  else
    s <- alt_fuel_series alt_fuel ;;
    let label := ("Switch to " ++ alt_fuel)%string in
    let scenarios :=
      dict_set (scenarios st) label
               (mkScenario (emissions s) (costs s)) in
    v <- calculate_npv (cash_flows s) DISCOUNT_RATE ;;
    let npv_summary := dict_set (npv_summary st) label v in
    let payback_summary :=
      dict_set (payback_summary st) label
               (calculate_payback_period (cash_flows s)) in
    Ok (mkSummaries scenarios npv_summary payback_summary).

(** The script from [scenarios = {}] to the end of the alternative-fuel
    loop. *)
Definition run : result summaries :=
  let scenarios := [] in
  let npv_summary := [] in
  let payback_summary := [] in
  s <- baseline_series ;;
  let scenarios :=
    dict_set scenarios "Baseline" (mkScenario (emissions s) (costs s)) in
  v <- calculate_npv (cash_flows s) DISCOUNT_RATE ;;
  let npv_summary := dict_set npv_summary "Baseline" v in
  s <- tech_upgrade_series ;;
  let scenarios :=
    dict_set scenarios "Tech Upgrade"
             (mkScenario (emissions s) (costs s)) in
  v <- calculate_npv (cash_flows s) DISCOUNT_RATE ;;
  let npv_summary := dict_set npv_summary "Tech Upgrade" v in
  let payback_summary :=
    dict_set payback_summary "Tech Upgrade"
             (calculate_payback_period (cash_flows s)) in
  for_in (keys EMISSION_FACTORS) alt_fuel_step
         (mkSummaries scenarios npv_summary payback_summary).

End Script.

(** The summary table handed to [st.table].  The NPV column holds the
    number that the script formats with [f"{x:,.0f}"]; the payback column
    holds [payback_summary.get(k, "-")]. *)
Record table_row : Type := mkRow {
  row_scenario : string;
  row_npv : Q;
  row_payback : pyval
}.

Definition dash : pyval := PyStr "-".

Definition payback_cell (payback_summary : dict pyval) (k : string)
  : pyval :=
  match dict_get payback_summary k with
  | Some p => p
  | None => dash
  end.

(** Rows are produced for [k in npv_summary]; [npv_summary[k]] cannot miss. *)
Definition summary_table (st : summaries) : list table_row :=
  map (fun '(k, v) => mkRow k v (payback_cell (payback_summary st) k))
      (npv_summary st).

(** The inputs the widgets hold before the user touches them. *)
Definition default_inputs : Inputs :=
  mkInputs (50000 # 1) "VLSFO" (10000 # 1) (100 # 1) (20000 # 1)
           (500000 # 1) (1 # 10).

(** * The embedding over the numbers of the program

    The functions of the program are written once and run on whatever
    numbers they receive.  The definitions above fix exact rationals; the
    module [Py] below embeds the same source over an interface of the
    operations it uses, [Num.PyNum], with two instances:
    - [exact]: exact rationals, the behaviour on Python's exact numbers
      ([fractions.Fraction]) and the idealisation used above;
    - [Binary64.binary64]: IEEE 754 binary64, the [float] of the script,
      on Rocq's primitive floats.
    [**] may raise [OverflowError], and a power that underflows to zero
    makes the next [/] raise [ZeroDivisionError]. *)

Module Num.

(** The arithmetic the program uses.  [of_int] converts an [int] operand,
    [lit] is the number a decimal literal denotes, [power x p] is
    [x ** p] for an [int] [p >= 1], [eqb], [leb] and [ltb] are [==], [<=]
    and [<], and [py_sum] is the built-in [sum] of a list of numbers. *)
Class PyNum (num : Type) : Type := {
  of_int : Z -> num;
  lit : Q -> num;
  add : num -> num -> num;
  sub : num -> num -> num;
  mul : num -> num -> num;
  opp : num -> num;
  truediv : num -> num -> num;
  power : num -> positive -> result num;
  eqb : num -> num -> bool;
  leb : num -> num -> bool;
  ltb : num -> num -> bool;
  py_sum : list num -> num
}.

End Num.

(** Exact rationals. *)
#[global] Instance exact : Num.PyNum Q := {|
  Num.of_int := inject_Z;
  Num.lit := fun q => q;
  Num.add := Qplus;
  Num.sub := Qminus;
  Num.mul := Qmult;
  Num.opp := Qopp;
  Num.truediv := Qdiv;
  Num.power := fun x p => Ok (Qpower_positive x p);
  Num.eqb := Qeq_bool;
  Num.leb := Qle_bool;
  Num.ltb := fun x y => negb (Qle_bool y x);
  Num.py_sum := fun l => fold_left Qplus l 0
|}.

Module Binary64.

Import FloatClass PrimFloat SpecFloat FloatOps.

(** The [float] nearest to an [int] (ties to even). *)
Definition of_int (z : Z) : float :=
  SF2Prim (binary_normalize prec emax z 0 false).

(** The [float] a decimal literal [n / d] denotes: the quotient of two
    exactly converted integers is rounded once, to nearest. *)
Definition lit (q : Q) : float :=
  PrimFloat.div (of_int (Qnum q)) (of_int (Zpos (Qden q))).

(** [x ** p] for [p >= 1]: the exact power of a finite [x], rounded to
    nearest; Python raises [OverflowError] when a finite base gives an
    infinite result, and returns a result that underflows, down to zero,
    silently. *)
Definition power (x : float) (p : positive) : result float :=
  match Prim2SF x with
  | S754_finite s m e =>
      let y :=
        SF2Prim (binary_normalize prec emax
                   (if s && Z.odd (Zpos p) then Zneg (m ^ p) else Zpos (m ^ p))
                   (e * Zpos p) false) in
      if is_infinity y then Raise OverflowError else Ok y
  | S754_zero s => Ok (if s && Z.odd (Zpos p) then neg_zero else zero)
  | S754_infinity s =>
      Ok (if s && Z.odd (Zpos p) then neg_infinity else infinity)
  | S754_nan => Ok nan
  end.

#[global] Instance binary64 : Num.PyNum float := {|
  Num.of_int := of_int;
  Num.lit := lit;
  Num.add := PrimFloat.add;
  Num.sub := PrimFloat.sub;
  Num.mul := PrimFloat.mul;
  Num.opp := PrimFloat.opp;
  Num.truediv := PrimFloat.div;
  Num.power := power;
  Num.eqb := PrimFloat.eqb;
  Num.leb := PrimFloat.leb;
  Num.ltb := PrimFloat.ltb;
  Num.py_sum := fun l => fold_left PrimFloat.add l (of_int 0)
|}.

End Binary64.

Module Py.

Section Model.

Context {num : Type} {A : Num.PyNum num}.

Definition zero : num := Num.of_int 0.
Definition one : num := Num.of_int 1.

(** [x / y]: raises when [y == 0]. *)
Definition div (x y : num) : result num :=
  if Num.eqb y zero then Raise ZeroDivisionError else Ok (Num.truediv x y).

(** [x ** n] for an [int] [n >= 0]: [x ** 0] is [1] for every [x]. *)
Definition pow (x : num) (n : N) : result num :=
  match n with
  | N0 => Ok one
  | Npos p => Num.power x p
  end.

(** The items of a generator, up to the first one that raises. *)
Fixpoint collect {X : Type} (f : X -> result num) (xs : list X)
  : result (list num) :=
  match xs with
  | [] => Ok []
  | x :: rest => y <- f x ;; ys <- collect f rest ;; Ok (y :: ys)
  end.

(** [sum(f(x) for x in xs)]. *)
Definition sum_gen {X : Type} (f : X -> result num) (xs : list X)
  : result num :=
  items <- collect f xs ;; Ok (Num.py_sum items).

Definition EMISSION_FACTORS : dict num :=
  [ ("VLSFO"%string, Num.lit (3114 # 1000));
    ("MGO"%string, Num.lit (3206 # 1000));
    ("LNG"%string, Num.lit (2750 # 1000));
    ("Methanol"%string, Num.lit (1375 # 1000));
    ("Ammonia"%string, Num.lit (0 # 1000)) ].

Definition FUEL_PRICES : dict num :=
  [ ("VLSFO"%string, Num.of_int 600);
    ("MGO"%string, Num.of_int 700);
    ("LNG"%string, Num.of_int 800);
    ("Methanol"%string, Num.of_int 900);
    ("Ammonia"%string, Num.of_int 1000) ].

Definition DISCOUNT_RATE : num := Num.lit (7 # 100).
Definition EFFICIENCY_DEGRADATION_RATE : num := Num.lit (1 # 100).

Record Vessel : Type := mkVessel {
  dwt : num;
  fuel_type : string;
  annual_fuel_consumption : num
}.

Definition calculate_emissions (fuel_type : string) (fuel_consumed : num)
  : result num :=
  factor <- getitem EMISSION_FACTORS fuel_type ;;
  Ok (Num.mul fuel_consumed factor).

Definition calculate_carbon_tax (emissions tax_rate : num) : num :=
  Num.mul emissions tax_rate.

Definition apply_tech_efficiency_reduction (base_fuel efficiency_gain : num)
  : num :=
  Num.mul base_fuel (Num.sub one efficiency_gain).

(** The exponent [year % DRYDOCK_CYCLE] is never negative. *)
Definition get_degradation_multiplier (year : Z) : result num :=
  pow (Num.add one EFFICIENCY_DEGRADATION_RATE)
      (Z.to_N (year mod DRYDOCK_CYCLE)).

(** The generator expression [cf / ((1 + discount_rate) ** i)] of
    [calculate_npv]; the index of [enumerate] is never negative. *)
Definition npv_item (discount_rate : num) (x : Z * num) : result num :=
  let '(i, cf) := x in
  p <- pow (Num.add one discount_rate) (Z.to_N i) ;; div cf p.

Definition calculate_npv (cash_flows : list num) (discount_rate : num)
  : result num :=
  sum_gen (npv_item discount_rate) (enumerate cash_flows).

Fixpoint payback_loop (items : list (Z * num)) (cumulative : num)
  : pyval :=
  match items with
  | [] => exceeds_horizon
  | (i, cf) :: rest =>
      let cumulative := Num.add cumulative cf in
      if Num.leb zero cumulative then PyInt (i + 1)
      else payback_loop rest cumulative
  end.

Definition calculate_payback_period (cash_flows : list num) : pyval :=
  payback_loop (enumerate cash_flows) zero.

Record Inputs : Type := mkInputs {
  ui_dwt : num;
  ui_fuel_type : string;
  ui_annual_consumption : num;
  ui_tax_rate : num;
  ui_opex : num;
  ui_capex : num;
  ui_efficiency_gain : num
}.

Record series : Type := mkSeries {
  emissions : list num;
  costs : list num;
  cash_flows : list num
}.

Definition empty_series : series := mkSeries [] [] [].

Record year_locals : Type := mkYear {
  mult : num;
  fuel : num;
  e : num;
  t : num;
  fc : num;
  total : num
}.

Definition append_year (s : series) (y : year_locals) : series :=
  mkSeries (emissions s ++ [e y]) (costs s ++ [total y])
           (cash_flows s ++ [Num.opp (total y)]).

Definition capex_at (capex : num) (year : Z) : num :=
  if Z.eqb year 0 then capex else zero.

Record scenario : Type := mkScenario {
  sc_emissions : list num;
  sc_costs : list num
}.

Record summaries : Type := mkSummaries {
  scenarios : dict scenario;
  npv_summary : dict num;
  payback_summary : dict pyval
}.

Variable ui : Inputs.

Definition vessel : Vessel :=
  mkVessel (ui_dwt ui) (ui_fuel_type ui) (ui_annual_consumption ui).

Definition baseline_year (year : Z) : result year_locals :=
  mult <- get_degradation_multiplier year ;;
  let fuel := Num.mul (annual_fuel_consumption vessel) mult in
  e <- calculate_emissions (fuel_type vessel) fuel ;;
  let t := calculate_carbon_tax e (ui_tax_rate ui) in
  price <- getitem FUEL_PRICES (fuel_type vessel) ;;
  let fc := Num.mul fuel price in
  let total := Num.add (Num.add fc t) (ui_opex ui) in
  Ok (mkYear mult fuel e t fc total).

Definition tech_upgrade_year (year : Z) : result year_locals :=
  mult <- get_degradation_multiplier year ;;
  let fuel :=
    apply_tech_efficiency_reduction
      (Num.mul (annual_fuel_consumption vessel) mult)
      (ui_efficiency_gain ui) in
  e <- calculate_emissions (fuel_type vessel) fuel ;;
  let t := calculate_carbon_tax e (ui_tax_rate ui) in
  price <- getitem FUEL_PRICES (fuel_type vessel) ;;
  let fc := Num.mul fuel price in
  let total :=
    Num.add (Num.add (Num.add fc t) (ui_opex ui))
            (capex_at (ui_capex ui) year) in
  Ok (mkYear mult fuel e t fc total).

Definition alt_fuel_year (alt_fuel : string) (year : Z)
  : result year_locals :=
  mult <- get_degradation_multiplier year ;;
  let fuel := Num.mul (annual_fuel_consumption vessel) mult in
  e <- calculate_emissions alt_fuel fuel ;;
  let t := calculate_carbon_tax e (ui_tax_rate ui) in
  price <- getitem FUEL_PRICES alt_fuel ;;
  let fc := Num.mul fuel price in
  let total :=
    Num.add (Num.add (Num.add fc t) (ui_opex ui))
            (capex_at (ui_capex ui) year) in
  Ok (mkYear mult fuel e t fc total).

Definition year_loop (body : Z -> result year_locals) : result series :=
  for_in (range YEARS)
         (fun year s => y <- body year ;; Ok (append_year s y))
         empty_series.

Definition alt_fuel_step (alt_fuel : string) (st : summaries)
  : result summaries :=
  if String.eqb alt_fuel (fuel_type vessel) then Ok st
  else
    s <- year_loop (alt_fuel_year alt_fuel) ;;
    let label := ("Switch to " ++ alt_fuel)%string in
    let scenarios :=
      dict_set (scenarios st) label
               (mkScenario (emissions s) (costs s)) in
    v <- calculate_npv (cash_flows s) DISCOUNT_RATE ;;
    let npv_summary := dict_set (npv_summary st) label v in
    let payback_summary :=
      dict_set (payback_summary st) label
               (calculate_payback_period (cash_flows s)) in
    Ok (mkSummaries scenarios npv_summary payback_summary).

Definition run : result summaries :=
  let scenarios := [] in
  let npv_summary := [] in
  let payback_summary := [] in
  s <- year_loop baseline_year ;;
  let scenarios :=
    dict_set scenarios "Baseline" (mkScenario (emissions s) (costs s)) in
  v <- calculate_npv (cash_flows s) DISCOUNT_RATE ;;
  let npv_summary := dict_set npv_summary "Baseline" v in
  s <- year_loop tech_upgrade_year ;;
  let scenarios :=
    dict_set scenarios "Tech Upgrade"
             (mkScenario (emissions s) (costs s)) in
  v <- calculate_npv (cash_flows s) DISCOUNT_RATE ;;
  let npv_summary := dict_set npv_summary "Tech Upgrade" v in
  let payback_summary :=
    dict_set payback_summary "Tech Upgrade"
             (calculate_payback_period (cash_flows s)) in
  for_in (keys EMISSION_FACTORS) alt_fuel_step
         (mkSummaries scenarios npv_summary payback_summary).

(** The running total after the addition of cash flow [i], as the loop of
    [calculate_payback_period] computes it: from 0, one [+=] per entry. *)
Definition running_total (cfs : list num) (i : nat) : num :=
  fold_left Num.add (firstn (S i) cfs) zero.

(** [(1 + r) ** i] evaluates without raising, to a number that is not
    zero. *)
Definition factor_ok (r : num) (i : nat) : Prop :=
  exists p, pow (Num.add one r) (N.of_nat i) = Ok p /\
            Num.eqb p zero = false.

End Model.

End Py.

Arguments Py.Inputs num : clear implicits.
Arguments Py.summaries num : clear implicits.
Arguments Py.series num : clear implicits.
Arguments Py.year_locals num : clear implicits.
Arguments Py.scenario num : clear implicits.

(** The inputs of the worked example as binary64 numbers. *)
Definition default_inputs_binary64 : Py.Inputs PrimFloat.float :=
  Py.mkInputs (Num.of_int 50000) "VLSFO" (Num.of_int 10000)
              (Num.of_int 100) (Num.of_int 20000) (Num.of_int 500000)
              (Num.lit (1 # 10)).

(** The records of the exact reading, as records of the model over
    [Num.PyNum Q]. *)
Definition py_inputs (ui : Inputs) : Py.Inputs Q :=
  Py.mkInputs (ui_dwt ui) (ui_fuel_type ui) (ui_annual_consumption ui)
              (ui_tax_rate ui) (ui_opex ui) (ui_capex ui)
              (ui_efficiency_gain ui).

Definition py_year (y : year_locals) : Py.year_locals Q :=
  Py.mkYear (mult y) (fuel y) (e y) (t y) (fc y) (total y).

Definition py_series (s : series) : Py.series Q :=
  Py.mkSeries (emissions s) (costs s) (cash_flows s).

Definition py_scenario (s : scenario) : Py.scenario Q :=
  Py.mkScenario (sc_emissions s) (sc_costs s).

Definition dict_map {V W : Type} (f : V -> W) (d : dict V) : dict W :=
  map (fun kv => (fst kv, f (snd kv))) d.

Definition py_summaries (st : summaries) : Py.summaries Q :=
  Py.mkSummaries (dict_map py_scenario (scenarios st)) (npv_summary st)
                 (payback_summary st).

(** * Definitions used to state and prove the properties

    None of these is part of the program.  [Qsum], [cumulative_at] and
    [discounted_sum] are the mathematical notions the properties are
    stated with.  The others are the values the script computes when no
    exception is raised, so that its three dictionaries can be written
    down; [run_ok] shows that [run] returns [run_value]. *)

(** The mathematical sum of a list of numbers. *)
Fixpoint Qsum (l : list Q) : Q :=
  match l with
  | [] => 0
  | x :: rest => x + Qsum rest
  end.

(** The cumulative cash flow after year index [i]: the sum of the first
    [i + 1] entries. *)
Definition cumulative_at (cfs : list Q) (i : nat) : Q :=
  Qsum (firstn (S i) cfs).

(** The discounted sum written in the specification:
    the sum over [i = 0 .. length - 1] of [cash_flows[i] / (1 + r) ^ i]. *)
Definition discounted_sum (cfs : list Q) (r : Q) : Q :=
  Qsum (map (fun i => nth i cfs 0 / (1 + r) ^ Z.of_nat i)
            (seq 0 (length cfs))).

(** The value the generator sum accumulates when no division raises. *)
Fixpoint npv_acc (k : Z) (cfs : list Q) (r : Q) (acc : Q) : Q :=
  match cfs with
  | [] => acc
  | cf :: rest => npv_acc (k + 1)%Z rest r (acc + cf / (1 + r) ^ k)
  end.

(** [EMISSION_FACTORS[k]] and [FUEL_PRICES[k]] for a key of the tables. *)
Definition factor_of (k : string) : Q :=
  match dict_get EMISSION_FACTORS k with Some f => f | None => 0 end.

Definition price_of (k : string) : Q :=
  match dict_get FUEL_PRICES k with Some p => p | None => 0 end.

(** The locals of one iteration of each of the three loops. *)
Definition baseline_locals (ui : Inputs) (year : Z) : year_locals :=
  let mult := get_degradation_multiplier year in
  let fuel := ui_annual_consumption ui * mult in
  let e := fuel * factor_of (ui_fuel_type ui) in
  let t := e * ui_tax_rate ui in
  let fc := fuel * price_of (ui_fuel_type ui) in
  mkYear mult fuel e t fc (fc + t + ui_opex ui).

Definition tech_upgrade_locals (ui : Inputs) (year : Z) : year_locals :=
  let mult := get_degradation_multiplier year in
  let fuel := (ui_annual_consumption ui * mult) * (1 - ui_efficiency_gain ui) in
  let e := fuel * factor_of (ui_fuel_type ui) in
  let t := e * ui_tax_rate ui in
  let fc := fuel * price_of (ui_fuel_type ui) in
  mkYear mult fuel e t fc (fc + t + ui_opex ui + capex_at (ui_capex ui) year).

Definition alt_fuel_locals (ui : Inputs) (alt_fuel : string) (year : Z)
  : year_locals :=
  let mult := get_degradation_multiplier year in
  let fuel := ui_annual_consumption ui * mult in
  let e := fuel * factor_of alt_fuel in
  let t := e * ui_tax_rate ui in
  let fc := fuel * price_of alt_fuel in
  mkYear mult fuel e t fc (fc + t + ui_opex ui + capex_at (ui_capex ui) year).

(** The three lists after a loop whose every iteration returns [g year]. *)
Definition series_of (g : Z -> year_locals) : series :=
  mkSeries (map (fun year => e (g year)) (range YEARS))
           (map (fun year => total (g year)) (range YEARS))
           (map (fun year => - total (g year)) (range YEARS)).

(** The label [f"Switch to {alt_fuel}"]. *)
Definition switch_label (alt_fuel : string) : string :=
  ("Switch to " ++ alt_fuel)%string.

(** The NPV at [DISCOUNT_RATE]. *)
Definition npv_value (cfs : list Q) : Q := npv_acc 0 cfs DISCOUNT_RATE 0.

(** One iteration of the alternative-fuel loop, and the whole script. *)
Definition alt_fuel_step_value (ui : Inputs) (st : summaries)
  (alt_fuel : string) : summaries :=
  if String.eqb alt_fuel (ui_fuel_type ui) then st
  else
    let s := series_of (alt_fuel_locals ui alt_fuel) in
    let label := switch_label alt_fuel in
    mkSummaries
      (dict_set (scenarios st) label (mkScenario (emissions s) (costs s)))
      (dict_set (npv_summary st) label (npv_value (cash_flows s)))
      (dict_set (payback_summary st) label
                (calculate_payback_period (cash_flows s))).

Definition run_value (ui : Inputs) : summaries :=
  let sb := series_of (baseline_locals ui) in
  let st := series_of (tech_upgrade_locals ui) in
  fold_left (alt_fuel_step_value ui) (keys EMISSION_FACTORS)
    (mkSummaries
       (dict_set
          (dict_set [] "Baseline" (mkScenario (emissions sb) (costs sb)))
          "Tech Upgrade" (mkScenario (emissions st) (costs st)))
       (dict_set
          (dict_set [] "Baseline" (npv_value (cash_flows sb)))
          "Tech Upgrade" (npv_value (cash_flows st)))
       (dict_set [] "Tech Upgrade"
                 (calculate_payback_period (cash_flows st)))).

(** The supported fuels other than the vessel's, in table order. *)
Definition alt_fuels (ui : Inputs) : list string :=
  filter (fun k => negb (String.eqb k (ui_fuel_type ui)))
         (keys EMISSION_FACTORS).

(** The entry [{"emissions": emissions, "costs": costs}]. *)
Definition scenario_of (s : series) : scenario :=
  mkScenario (emissions s) (costs s).

(** The inputs of the worked example, with the CAPEX left open. *)
Definition example_inputs (capex : Q) : Inputs :=
  mkInputs (50000 # 1) "VLSFO" (10000 # 1) (100 # 1) (20000 # 1)
           capex (1 # 10).

(** The reading of C8 as it is stated: every scenario has an NPV and a
    payback value that is a year count or the sentinel, and no row of the
    table shows the placeholder. *)
Definition every_scenario_has_payback (st : summaries) : Prop :=
  forall label,
    In label (keys (scenarios st)) ->
    (exists v, dict_get (npv_summary st) label = Some v) /\
    (exists p, dict_get (payback_summary st) label = Some p /\
               ((exists n, p = PyInt n) \/ p = exceeds_horizon)) /\
    payback_cell (payback_summary st) label <> dash.

(** The inputs [ui] with another CAPEX and another efficiency gain. *)
Definition with_investment (ui : Inputs) (capex gain : Q) : Inputs :=
  mkInputs (ui_dwt ui) (ui_fuel_type ui) (ui_annual_consumption ui)
           (ui_tax_rate ui) (ui_opex ui) capex gain.

(** * Properties *)

(** ** Payback period *)

Lemma cumulative_at_cons (cf : Q) (rest : list Q) (i : nat) :
  cumulative_at (cf :: rest) (S i) = cf + cumulative_at rest i.
Proof. reflexivity. Qed.

Lemma Qle_bool_false (x y : Q) : Qle_bool x y = false <-> y < x.
Proof.
  split.
  - intros Hb. apply Qnot_le_lt. intros Hle.
    apply Qle_bool_iff in Hle. congruence.
  - intros Hlt. destruct (Qle_bool x y) eqn:Hb; [|reflexivity].
    apply Qle_bool_iff in Hb. exfalso. exact (Qlt_not_le _ _ Hlt Hb).
Qed.

(** The loop returns at the first index whose running total is
    non-negative, counting from the index and the total it starts with. *)
Lemma payback_loop_first (cfs : list Q) :
  forall (k : Z) (acc : Q) (i : nat),
    (i < length cfs)%nat ->
    0 <= acc + cumulative_at cfs i ->
    (forall j, (j < i)%nat -> acc + cumulative_at cfs j < 0) ->
    payback_loop (enumerate_from k cfs) acc = PyInt (k + Z.of_nat i + 1).
Proof.
  induction cfs as [|cf rest IH]; intros k acc i Hlen Hge Hlt.
  - simpl in Hlen. lia.
  - destruct i as [|i].
    + cbn [enumerate_from payback_loop].
      assert (Hb : Qle_bool 0 (acc + cf) = true).
      { apply Qle_bool_iff. unfold cumulative_at in Hge. simpl in Hge.
        now rewrite Qplus_0_r in Hge. }
      rewrite Hb. f_equal. lia.
    + cbn [enumerate_from payback_loop].
      assert (Hb : Qle_bool 0 (acc + cf) = false).
      { apply Qle_bool_false.
        specialize (Hlt 0%nat (Nat.lt_0_succ i)).
        unfold cumulative_at in Hlt. simpl in Hlt.
        now rewrite Qplus_0_r in Hlt. }
      rewrite Hb.
      rewrite (IH (k + 1)%Z (acc + cf) i).
      * f_equal. lia.
      * simpl in Hlen. lia.
      * rewrite cumulative_at_cons, Qplus_assoc in Hge. exact Hge.
      * intros j Hj. specialize (Hlt (S j) (proj1 (Nat.succ_lt_mono j i) Hj)).
        rewrite cumulative_at_cons, Qplus_assoc in Hlt. exact Hlt.
Qed.

(** The loop falls through to the sentinel when every running total is
    negative. *)
Lemma payback_loop_never (cfs : list Q) :
  forall (k : Z) (acc : Q),
    (forall i, (i < length cfs)%nat -> acc + cumulative_at cfs i < 0) ->
    payback_loop (enumerate_from k cfs) acc = exceeds_horizon.
Proof.
  induction cfs as [|cf rest IH]; intros k acc Hlt.
  - reflexivity.
  - cbn [enumerate_from payback_loop].
    assert (Hb : Qle_bool 0 (acc + cf) = false).
    { apply Qle_bool_false.
      specialize (Hlt 0%nat (Nat.lt_0_succ _)).
      unfold cumulative_at in Hlt. simpl in Hlt.
      now rewrite Qplus_0_r in Hlt. }
    rewrite Hb. apply IH. intros i Hi.
    specialize (Hlt (S i)). rewrite cumulative_at_cons, Qplus_assoc in Hlt.
    apply Hlt. simpl. lia.
Qed.

(** The sum of negative numbers over a non-empty prefix is negative. *)
Lemma cumulative_at_negative (cfs : list Q) :
  Forall (fun cf => cf < 0) cfs ->
  forall i, (i < length cfs)%nat -> cumulative_at cfs i < 0.
Proof.
  induction 1 as [|cf rest Hcf Hrest IH]; intros i Hi.
  - simpl in Hi. lia.
  - destruct i as [|i].
    + unfold cumulative_at. simpl. now rewrite Qplus_0_r.
    + rewrite cumulative_at_cons.
      assert (Hr : cumulative_at rest i < 0) by (apply IH; simpl in Hi; lia).
      setoid_replace 0 with (0 + 0) by ring.
      apply Qplus_lt_le_compat; [exact Hcf | now apply Qlt_le_weak].
Qed.

(** Whatever the cash flows, the result is a year count between 1 and the
    length of the sequence, or the sentinel. *)
Lemma payback_loop_range (cfs : list Q) :
  forall (k : Z) (acc : Q),
    (exists n, payback_loop (enumerate_from k cfs) acc = PyInt n /\
               (k + 1 <= n <= k + Z.of_nat (length cfs))%Z) \/
    payback_loop (enumerate_from k cfs) acc = exceeds_horizon.
Proof.
  induction cfs as [|cf rest IH]; intros k acc.
  - now right.
  - cbn [enumerate_from payback_loop].
    destruct (Qle_bool 0 (acc + cf)).
    + left. exists (k + 1)%Z. split; [reflexivity|]. simpl length. lia.
    + destruct (IH (k + 1)%Z (acc + cf)) as [[n [Hn Hr]]|Hs].
      * left. exists n. split; [exact Hn|]. simpl length. lia.
      * now right.
Qed.

(** ** Net present value *)

Lemma py_div_nonzero (x y : Q) : ~ y == 0 -> py_div x y = Ok (x / y).
Proof.
  intros Hy. unfold py_div.
  destruct (Qeq_bool y 0) eqn:Hb; [|reflexivity].
  apply Qeq_bool_iff in Hb. contradiction.
Qed.

Lemma py_div_zero (x y : Q) : y == 0 -> py_div x y = Raise ZeroDivisionError.
Proof.
  intros Hy. unfold py_div.
  apply Qeq_bool_iff in Hy. now rewrite Hy.
Qed.

(** Away from a discount rate of -1 no division raises and the sum is
    [npv_acc]. *)
Lemma sum_gen_npv (r : Q) (Hr : ~ 1 + r == 0) (cfs : list Q) :
  forall (k : Z) (acc : Q),
    sum_gen (fun '(i, cf) => py_div cf (py_pow (1 + r) i))
            (enumerate_from k cfs) acc
    = Ok (npv_acc k cfs r acc).
Proof.
  induction cfs as [|cf rest IH]; intros k acc.
  - reflexivity.
  - cbn [enumerate_from sum_gen npv_acc].
    rewrite py_div_nonzero by (apply Qpower_not_0; exact Hr).
    cbn [bind]. apply IH.
Qed.

Lemma calculate_npv_value (cfs : list Q) (r : Q) :
  ~ 1 + r == 0 -> calculate_npv cfs r = Ok (npv_acc 0 cfs r 0).
Proof. intros Hr. now apply sum_gen_npv. Qed.

(** [npv_acc] is the accumulator plus the discounted sum of the
    specification, shifted by the starting index. *)
Lemma npv_acc_sum (r : Q) (cfs : list Q) :
  forall (n : nat) (acc : Q),
    npv_acc (Z.of_nat n) cfs r acc ==
    acc + Qsum (map (fun i => nth i cfs 0 / (1 + r) ^ Z.of_nat (n + i))
                    (seq 0 (length cfs))).
Proof.
  induction cfs as [|cf rest IH]; intros n acc.
  - simpl. ring.
  - cbn [npv_acc length seq map Qsum nth].
    replace (Z.of_nat n + 1)%Z with (Z.of_nat (S n)) by lia.
    rewrite IH. rewrite <- seq_shift, map_map.
    rewrite Nat.add_0_r.
    rewrite (map_ext
               (fun i => nth (S i) (cf :: rest) 0
                         / (1 + r) ^ Z.of_nat (n + S i))
               (fun i => nth i rest 0 / (1 + r) ^ Z.of_nat (S n + i))).
    + ring.
    + intros i. cbn [nth]. do 2 f_equal. lia.
Qed.

Lemma npv_acc_discounted_sum (cfs : list Q) (r : Q) :
  npv_acc 0 cfs r 0 == discounted_sum cfs r.
Proof.
  change 0%Z with (Z.of_nat 0). rewrite npv_acc_sum.
  unfold discounted_sum. cbn [Nat.add]. ring.
Qed.

Lemma npv_acc_zero (r : Q) (cfs : list Q) :
  Forall (fun cf => cf == 0) cfs ->
  forall (k : Z) (acc : Q), npv_acc k cfs r acc == acc.
Proof.
  induction 1 as [|cf rest Hcf Hrest IH]; intros k acc.
  - reflexivity.
  - cbn [npv_acc]. rewrite IH. unfold Qdiv. rewrite Hcf. ring.
Qed.

(** One cash flow is never discounted, whatever the rate. *)
Lemma calculate_npv_single (c r : Q) :
  exists v, calculate_npv [c] r = Ok v /\ v == c.
Proof.
  exists (0 + c / 1). split.
  - reflexivity.
  - field.
Qed.

(** At a discount rate of -1 the second division is by zero. *)
Lemma calculate_npv_raises (c0 c1 : Q) (rest : list Q) (r : Q) :
  1 + r == 0 ->
  calculate_npv (c0 :: c1 :: rest) r = Raise ZeroDivisionError.
Proof.
  intros Hr. unfold calculate_npv, enumerate.
  cbn [enumerate_from sum_gen].
  change (py_div c0 (py_pow (1 + r) 0)) with (Ok (c0 / 1)).
  cbn [bind].
  rewrite (py_div_zero c1 (py_pow (1 + r) (0 + 1))); [reflexivity|].
  exact Hr.
Qed.

Lemma rate_not_minus_one (r : Q) : ~ r == -1 <-> ~ 1 + r == 0.
Proof.
  split; intros H Heq; apply H.
  - setoid_replace r with (1 + r - 1) by ring. rewrite Heq. reflexivity.
  - rewrite Heq. reflexivity.
Qed.


(** C4 fails as stated: with the finite inputs [[1, 1]] and a discount
    rate of -1 the function raises a division by zero and returns
    nothing. *)
Lemma npv_raises_at_minus_one :
  calculate_npv [1; 1] (-1) = Raise ZeroDivisionError /\
  ~ (exists v, calculate_npv [1; 1] (-1) = Ok v).
Proof.
  split; [reflexivity|].
  intros [v Hv]. discriminate Hv.
Qed.

(** ** Degradation multiplier *)

Lemma degradation_multiplier_ge_1 (year : Z) :
  1 <= get_degradation_multiplier year.
Proof.
  unfold get_degradation_multiplier, py_pow.
  apply Qpower_1_le.
  - vm_compute. discriminate.
  - apply Z.mod_pos_bound. reflexivity.
Qed.

Lemma degradation_multiplier_pos (year : Z) :
  0 <= get_degradation_multiplier year.
Proof.
  apply Qle_trans with 1; [discriminate|].
  apply degradation_multiplier_ge_1.
Qed.

(** C5: the multiplier of a year index is [(1 + 0.01) ^ (year mod 5)]; it
    is at least 1, it is 1 in year 0 and again in year [DRYDOCK_CYCLE],
    and it grows strictly inside one cycle. *)
Theorem degradation_multiplier_spec :
  EFFICIENCY_DEGRADATION_RATE == 0.01 /\
  DRYDOCK_CYCLE = 5%Z /\
  (forall year : Z,
      (0 <= year)%Z ->
      get_degradation_multiplier year ==
        (1 + EFFICIENCY_DEGRADATION_RATE) ^ (year mod DRYDOCK_CYCLE) /\
      1 <= get_degradation_multiplier year) /\
  get_degradation_multiplier 0 == 1 /\
  get_degradation_multiplier DRYDOCK_CYCLE == 1 /\
  (forall a b : Z,
      (0 <= a)%Z -> (a < b)%Z -> (b < DRYDOCK_CYCLE)%Z ->
      get_degradation_multiplier a < get_degradation_multiplier b).
Proof.
  split; [reflexivity|]. split; [reflexivity|].
  split; [|split; [reflexivity|split; [reflexivity|]]].
  - intros year _. split.
    + reflexivity.
    + apply degradation_multiplier_ge_1.
  - unfold DRYDOCK_CYCLE. intros a b Ha Hab Hb.
    assert (Ea : (a = 0 \/ a = 1 \/ a = 2 \/ a = 3)%Z) by lia.
    assert (Eb : (b = 1 \/ b = 2 \/ b = 3 \/ b = 4)%Z) by lia.
    destruct Ea as [->|[->|[->| ->]]];
      destruct Eb as [->|[->|[->| ->]]];
      try lia; reflexivity.
Qed.

Lemma degradation_multiplier_spec_witness :
  1 <= get_degradation_multiplier 7 /\
  get_degradation_multiplier 2 < get_degradation_multiplier 3.
Proof.
  destruct degradation_multiplier_spec as (_ & _ & Hyear & _ & _ & Hmono).
  split.
  - apply (Hyear 7%Z). lia.
  - apply (Hmono 2%Z 3%Z); unfold DRYDOCK_CYCLE; lia.
Defined.

(** ** Dictionary lookups *)

Lemma dict_get_none {V : Type} (d : dict V) (k : string) :
  dict_get d k = None <-> ~ In k (keys d).
Proof.
  induction d as [|[k' v] rest IH]; simpl.
  - tauto.
  - destruct (String.eqb_spec k' k) as [->|Hne].
    + split; [discriminate | intros H; exfalso; apply H; now left].
    + rewrite IH. tauto.
Qed.

Lemma dict_get_some_in {V : Type} (d : dict V) (k : string) (v : V) :
  dict_get d k = Some v -> In (k, v) d.
Proof.
  induction d as [|[k' v'] rest IH]; simpl; [discriminate|].
  destruct (String.eqb_spec k' k) as [->|Hne].
  - intros [= ->]. now left.
  - intros H. right. now apply IH.
Qed.

Lemma dict_get_in_keys {V : Type} (d : dict V) (k : string) :
  In k (keys d) <-> exists v, dict_get d k = Some v.
Proof.
  destruct (dict_get d k) as [v|] eqn:Hget.
  - split; [now exists v|]. intros _.
    apply dict_get_some_in in Hget.
    apply (in_map fst) in Hget. exact Hget.
  - apply dict_get_none in Hget. split; [tauto|].
    intros [v Hv]. discriminate Hv.
Qed.

Lemma dict_get_nodup {V : Type} (d : dict V) (k : string) (v : V) :
  NoDup (keys d) -> In (k, v) d -> dict_get d k = Some v.
Proof.
  induction d as [|[k' v'] rest IH]; simpl; [tauto|].
  intros Hnd Hin. inversion Hnd as [|? ? Hnotin Hnd']; subst.
  destruct Hin as [[= -> ->]|Hin].
  - now rewrite String.eqb_refl.
  - destruct (String.eqb_spec k' k) as [->|Hne].
    + exfalso. apply Hnotin. apply (in_map fst) in Hin. exact Hin.
    + now apply IH.
Qed.

Lemma emission_factors_nodup : NoDup (keys EMISSION_FACTORS).
Proof.
  repeat constructor; simpl; intuition discriminate.
Qed.

(** ** Emissions *)

(** C6: for a fuel type of the five-entry table [calculate_emissions]
    returns the quantity times the emission factor of that fuel; it raises
    the lookup error for the fuel type, and returns nothing, exactly when
    the fuel type is not in the table. *)
Theorem emissions_spec (f : string) (q : Q) :
  length EMISSION_FACTORS = 5%nat /\
  (forall factor,
      In (f, factor) EMISSION_FACTORS ->
      calculate_emissions f q = Ok (q * factor)) /\
  (calculate_emissions f q = Raise (KeyError f) <->
   ~ In f (keys EMISSION_FACTORS)) /\
  ((exists v, calculate_emissions f q = Ok v) <->
   In f (keys EMISSION_FACTORS)).
Proof.
  split; [reflexivity|].
  unfold calculate_emissions, getitem.
  split; [|split].
  - intros factor Hin.
    now rewrite (dict_get_nodup _ _ _ emission_factors_nodup Hin).
  - rewrite <- dict_get_none.
    destruct (dict_get EMISSION_FACTORS f); simpl;
      split; congruence.
  - rewrite dict_get_in_keys.
    destruct (dict_get EMISSION_FACTORS f) as [factor|]; simpl.
    + split; [now exists factor | now exists (q * factor)].
    + split; intros [v Hv]; discriminate Hv.
Qed.

Lemma emissions_spec_witness :
  calculate_emissions "LNG" 200 = Ok (200 * (2750 # 1000)) /\
  calculate_emissions "Coal" 200 = Raise (KeyError "Coal").
Proof.
  split.
  - apply (proj1 (proj2 (emissions_spec "LNG" 200))).
    simpl. tauto.
  - apply (proj2 (proj1 (proj2 (proj2 (emissions_spec "Coal" 200))))).
    simpl. intuition discriminate.
Defined.

(** ** The scenario loops, free of the error monad

    For a fuel type of the tables no lookup raises, and at [DISCOUNT_RATE]
    no division raises: the script then computes the values below. *)

Lemma for_in_append (body : Z -> result year_locals)
  (g : Z -> year_locals) (years : list Z) :
  (forall year, In year years -> body year = Ok (g year)) ->
  forall s : series,
    for_in years (fun year s => y <- body year ;; Ok (append_year s y)) s
    = Ok (mkSeries
            (emissions s ++ map (fun year => e (g year)) years)
            (costs s ++ map (fun year => total (g year)) years)
            (cash_flows s ++ map (fun year => - total (g year)) years)).
Proof.
  induction years as [|year rest IH]; intros Hbody s.
  - simpl. rewrite !app_nil_r. now destruct s.
  - cbn [for_in]. rewrite (Hbody year) by now left.
    cbn [bind]. rewrite IH by (intros y Hy; apply Hbody; now right).
    unfold append_year. cbn [emissions costs cash_flows map].
    now rewrite <- !app_assoc.
Qed.

Lemma year_loop_closed (body : Z -> result year_locals)
  (g : Z -> year_locals) :
  (forall year, In year (range YEARS) -> body year = Ok (g year)) ->
  year_loop body = Ok (series_of g).
Proof.
  intros Hbody. unfold year_loop.
  now rewrite (for_in_append body g (range YEARS) Hbody).
Qed.

(** The two tables have the same five keys. *)
Lemma tables_cover (k : string) :
  In k (keys EMISSION_FACTORS) ->
  getitem EMISSION_FACTORS k = Ok (factor_of k) /\
  getitem FUEL_PRICES k = Ok (price_of k) /\
  0 <= factor_of k /\ 0 <= price_of k.
Proof.
  simpl. intros [<-|[<-|[<-|[<-|[<-|[]]]]]];
    repeat split; discriminate.
Qed.

Lemma baseline_year_ok (ui : Inputs) (year : Z) :
  In (ui_fuel_type ui) (keys EMISSION_FACTORS) ->
  baseline_year ui year = Ok (baseline_locals ui year).
Proof.
  intros Hin. destruct (tables_cover _ Hin) as (Hf & Hp & _).
  unfold baseline_year, calculate_emissions. cbn [vessel fuel_type].
  rewrite Hf. cbn [bind]. rewrite Hp. reflexivity.
Qed.

Lemma tech_upgrade_year_ok (ui : Inputs) (year : Z) :
  In (ui_fuel_type ui) (keys EMISSION_FACTORS) ->
  tech_upgrade_year ui year = Ok (tech_upgrade_locals ui year).
Proof.
  intros Hin. destruct (tables_cover _ Hin) as (Hf & Hp & _).
  unfold tech_upgrade_year, calculate_emissions. cbn [vessel fuel_type].
  rewrite Hf. cbn [bind]. rewrite Hp. reflexivity.
Qed.

Lemma alt_fuel_year_ok (ui : Inputs) (alt_fuel : string) (year : Z) :
  In alt_fuel (keys EMISSION_FACTORS) ->
  alt_fuel_year ui alt_fuel year = Ok (alt_fuel_locals ui alt_fuel year).
Proof.
  intros Hin. destruct (tables_cover _ Hin) as (Hf & Hp & _).
  unfold alt_fuel_year, calculate_emissions.
  rewrite Hf. cbn [bind]. rewrite Hp. reflexivity.
Qed.

Lemma calculate_npv_discount_rate (cfs : list Q) :
  calculate_npv cfs DISCOUNT_RATE = Ok (npv_value cfs).
Proof. apply calculate_npv_value. discriminate. Qed.

Lemma alt_fuel_step_ok (ui : Inputs) (st : summaries) (alt_fuel : string) :
  In alt_fuel (keys EMISSION_FACTORS) ->
  alt_fuel_step ui alt_fuel st = Ok (alt_fuel_step_value ui st alt_fuel).
Proof.
  intros Hin. unfold alt_fuel_step, alt_fuel_step_value.
  cbn [vessel fuel_type].
  destruct (String.eqb alt_fuel (ui_fuel_type ui)); [reflexivity|].
  unfold alt_fuel_series.
  rewrite (year_loop_closed _ (alt_fuel_locals ui alt_fuel))
    by (intros; now apply alt_fuel_year_ok).
  cbn [bind]. rewrite calculate_npv_discount_rate. reflexivity.
Qed.

Lemma alt_fuel_loop_ok (ui : Inputs) (fuels : list string) :
  incl fuels (keys EMISSION_FACTORS) ->
  forall st,
    for_in fuels (alt_fuel_step ui) st
    = Ok (fold_left (alt_fuel_step_value ui) fuels st).
Proof.
  induction fuels as [|k rest IH]; intros Hincl st.
  - reflexivity.
  - cbn [for_in fold_left].
    rewrite alt_fuel_step_ok by (apply Hincl; now left).
    cbn [bind]. apply IH. intros x Hx. apply Hincl. now right.
Qed.

(** With a fuel type of the table the script runs to its end. *)
Lemma run_ok (ui : Inputs) :
  In (ui_fuel_type ui) (keys EMISSION_FACTORS) ->
  run ui = Ok (run_value ui).
Proof.
  intros Hin. unfold run, baseline_series, tech_upgrade_series.
  rewrite (year_loop_closed _ (baseline_locals ui))
    by (intros; now apply baseline_year_ok).
  cbn [bind]. rewrite calculate_npv_discount_rate. cbn [bind].
  rewrite (year_loop_closed _ (tech_upgrade_locals ui))
    by (intros; now apply tech_upgrade_year_ok).
  cbn [bind]. rewrite calculate_npv_discount_rate. cbn [bind].
  rewrite alt_fuel_loop_ok by apply incl_refl.
  reflexivity.
Qed.

(** With any other fuel type the first lookup of the Baseline loop
    raises. *)
Lemma run_unknown_fuel (ui : Inputs) :
  ~ In (ui_fuel_type ui) (keys EMISSION_FACTORS) ->
  run ui = Raise (KeyError (ui_fuel_type ui)).
Proof.
  intros Hin. apply dict_get_none in Hin.
  unfold run, baseline_series, year_loop.
  change (range YEARS) with (0%Z :: map Z.of_nat (seq 1 9)).
  cbn [for_in]. unfold baseline_year at 1, calculate_emissions, getitem.
  cbn [vessel fuel_type]. rewrite Hin. reflexivity.
Qed.

(** ** The shape of the three dictionaries *)

Lemma run_value_shape (ui : Inputs) :
  In (ui_fuel_type ui) (keys EMISSION_FACTORS) ->
  scenarios (run_value ui) =
    ("Baseline"%string, scenario_of (series_of (baseline_locals ui)))
    :: ("Tech Upgrade"%string,
        scenario_of (series_of (tech_upgrade_locals ui)))
    :: map (fun k => (switch_label k,
                      scenario_of (series_of (alt_fuel_locals ui k))))
           (alt_fuels ui) /\
  npv_summary (run_value ui) =
    ("Baseline"%string,
     npv_value (cash_flows (series_of (baseline_locals ui))))
    :: ("Tech Upgrade"%string,
        npv_value (cash_flows (series_of (tech_upgrade_locals ui))))
    :: map (fun k => (switch_label k,
                      npv_value
                        (cash_flows (series_of (alt_fuel_locals ui k)))))
           (alt_fuels ui) /\
  payback_summary (run_value ui) =
    ("Tech Upgrade"%string,
     calculate_payback_period
       (cash_flows (series_of (tech_upgrade_locals ui))))
    :: map (fun k => (switch_label k,
                      calculate_payback_period
                        (cash_flows (series_of (alt_fuel_locals ui k)))))
           (alt_fuels ui).
Proof.
  destruct ui as [d ft a tr ox cx eg]. cbn [ui_fuel_type].
  simpl In. intros [<-|[<-|[<-|[<-|[<-|[]]]]]];
    (split; [|split]); reflexivity.
Qed.

(** ** Entries of the series *)

Lemma range_length (n : Z) : length (range n) = Z.to_nat n.
Proof. unfold range. now rewrite length_map, length_seq. Qed.

Lemma range_nth (n : Z) (i : nat) :
  (i < Z.to_nat n)%nat -> nth i (range n) 0%Z = Z.of_nat i.
Proof.
  intros Hi. unfold range.
  change 0%Z with (Z.of_nat 0). rewrite map_nth.
  now rewrite seq_nth.
Qed.

Lemma in_range (n year : Z) : In year (range n) -> (0 <= year < n)%Z.
Proof.
  unfold range. rewrite in_map_iff. intros [i [<- Hi]].
  apply in_seq in Hi. lia.
Qed.

(** Entry [i] of a list built by one [append] per year. *)
Lemma nth_map_range (f : Z -> Q) (i : nat) :
  (i < Z.to_nat YEARS)%nat ->
  nth i (map f (range YEARS)) 0 = f (Z.of_nat i).
Proof.
  intros Hi.
  rewrite (nth_indep _ 0 (f 0%Z))
    by now rewrite length_map, range_length.
  rewrite map_nth. now rewrite range_nth.
Qed.

Lemma series_of_lengths (g : Z -> year_locals) :
  length (emissions (series_of g)) = Z.to_nat YEARS /\
  length (costs (series_of g)) = Z.to_nat YEARS /\
  length (cash_flows (series_of g)) = Z.to_nat YEARS.
Proof.
  unfold series_of; cbn [emissions costs cash_flows].
  now rewrite !length_map, range_length.
Qed.

(** The alternative fuels, for each fuel type of the table. *)
Lemma alt_fuels_cases (ui : Inputs) :
  In (ui_fuel_type ui) (keys EMISSION_FACTORS) ->
  (ui_fuel_type ui = "VLSFO"%string /\
   alt_fuels ui = ["MGO"; "LNG"; "Methanol"; "Ammonia"]%string) \/
  (ui_fuel_type ui = "MGO"%string /\
   alt_fuels ui = ["VLSFO"; "LNG"; "Methanol"; "Ammonia"]%string) \/
  (ui_fuel_type ui = "LNG"%string /\
   alt_fuels ui = ["VLSFO"; "MGO"; "Methanol"; "Ammonia"]%string) \/
  (ui_fuel_type ui = "Methanol"%string /\
   alt_fuels ui = ["VLSFO"; "MGO"; "LNG"; "Ammonia"]%string) \/
  (ui_fuel_type ui = "Ammonia"%string /\
   alt_fuels ui = ["VLSFO"; "MGO"; "LNG"; "Methanol"]%string).
Proof.
  unfold alt_fuels. simpl In.
  intros [<-|[<-|[<-|[<-|[<-|[]]]]]]; [left|right; left|
    right; right; left|right; right; right; left|
    right; right; right; right]; split; reflexivity.
Qed.

Lemma alt_fuels_spec (ui : Inputs) (k : string) :
  In k (alt_fuels ui) <->
  In k (keys EMISSION_FACTORS) /\ k <> ui_fuel_type ui.
Proof.
  unfold alt_fuels. rewrite filter_In.
  destruct (String.eqb_spec k (ui_fuel_type ui)); simpl;
    intuition congruence.
Qed.

Lemma payback_period_range (cfs : list Q) :
  (exists n, calculate_payback_period cfs = PyInt n /\
             (1 <= n <= Z.of_nat (length cfs))%Z) \/
  calculate_payback_period cfs = exceeds_horizon.
Proof.
  destruct (payback_loop_range cfs 0%Z 0) as [[n [Hn Hr]]|Hs].
  - left. exists n. split; [exact Hn | lia].
  - now right.
Qed.

(** ** The scenario set *)

(** C7: a run on a fuel type of the table (the only ones the selection box
    offers) produces the scenarios "Baseline", "Tech Upgrade" and one
    "Switch to {fuel}" for each supported fuel other than the vessel's:
    six distinct scenarios for the five-fuel table, each with an emissions
    list and a costs list of [YEARS] = 10 entries. *)
Theorem scenario_set_spec (ui : Inputs) :
  In (ui_fuel_type ui) (keys EMISSION_FACTORS) ->
  exists st,
    run ui = Ok st /\
    keys (scenarios st) =
      "Baseline"%string :: "Tech Upgrade"%string
      :: map switch_label (alt_fuels ui) /\
    (forall k, In k (alt_fuels ui) <->
               In k (keys EMISSION_FACTORS) /\ k <> ui_fuel_type ui) /\
    NoDup (keys (scenarios st)) /\
    length (alt_fuels ui) = (length EMISSION_FACTORS - 1)%nat /\
    length (scenarios st) = 6%nat /\
    YEARS = 10%Z /\
    (forall label sc,
        In (label, sc) (scenarios st) ->
        length (sc_emissions sc) = Z.to_nat YEARS /\
        length (sc_costs sc) = Z.to_nat YEARS).
Proof.
  intros Hin. exists (run_value ui).
  destruct (run_value_shape ui Hin) as (Hsc & _ & _).
  assert (Hkeys : keys (scenarios (run_value ui)) =
                  "Baseline"%string :: "Tech Upgrade"%string
                  :: map switch_label (alt_fuels ui)).
  { rewrite Hsc. unfold keys. cbn [map fst]. do 2 f_equal.
    rewrite map_map. reflexivity. }
  assert (Hlen : length (alt_fuels ui) = 4%nat).
  { destruct (alt_fuels_cases ui Hin)
      as [[_ ->]|[[_ ->]|[[_ ->]|[[_ ->]|[_ ->]]]]]; reflexivity. }
  split; [now apply run_ok|].
  split; [exact Hkeys|].
  split; [apply alt_fuels_spec|].
  split; [|split; [exact Hlen|split; [|split; [reflexivity|]]]].
  - rewrite Hkeys.
    destruct (alt_fuels_cases ui Hin)
      as [[_ ->]|[[_ ->]|[[_ ->]|[[_ ->]|[_ ->]]]]];
      cbv [map switch_label append];
      repeat constructor; simpl; intuition discriminate.
  - rewrite Hsc. cbn [length]. now rewrite length_map, Hlen.
  - intros label sc. rewrite Hsc. cbn [In].
    intros [[= <- <-]|[[= <- <-]|Hinmap]].
    + unfold scenario_of; cbn [sc_emissions sc_costs].
      split; apply series_of_lengths.
    + unfold scenario_of; cbn [sc_emissions sc_costs].
      split; apply series_of_lengths.
    + apply in_map_iff in Hinmap. destruct Hinmap as [k [[= <- <-] _]].
      unfold scenario_of; cbn [sc_emissions sc_costs].
      split; apply series_of_lengths.
Qed.

Lemma scenario_set_spec_witness :
  exists st,
    run default_inputs = Ok st /\
    keys (scenarios st) =
      ["Baseline"; "Tech Upgrade"; "Switch to MGO"; "Switch to LNG";
       "Switch to Methanol"; "Switch to Ammonia"]%string /\
    length (scenarios st) = 6%nat.
Proof.
  destruct (scenario_set_spec default_inputs)
    as (st & Hrun & Hk & _ & _ & _ & Hl & _).
  - simpl. tauto.
  - exists st. split; [exact Hrun|]. split; [exact Hk | exact Hl].
Defined.

(** ** Tech Upgrade against Baseline *)

Lemma run_value_baseline (ui : Inputs) :
  In (ui_fuel_type ui) (keys EMISSION_FACTORS) ->
  dict_get (scenarios (run_value ui)) "Baseline"
  = Some (scenario_of (series_of (baseline_locals ui))).
Proof.
  intros Hin. destruct (run_value_shape ui Hin) as (-> & _ & _).
  reflexivity.
Qed.

Lemma run_value_tech_upgrade (ui : Inputs) :
  In (ui_fuel_type ui) (keys EMISSION_FACTORS) ->
  dict_get (scenarios (run_value ui)) "Tech Upgrade"
  = Some (scenario_of (series_of (tech_upgrade_locals ui))).
Proof.
  intros Hin. destruct (run_value_shape ui Hin) as (-> & _ & _).
  reflexivity.
Qed.

(** ** Sign of the cash flows *)

Lemma cash_flow_nonpositive (fuel factor price tax opex extra : Q) :
  0 <= fuel -> 0 <= factor -> 0 <= price -> 0 <= tax -> 0 <= opex ->
  0 <= extra ->
  - (fuel * price + fuel * factor * tax + opex + extra) <= 0.
Proof.
  intros Hfuel Hfactor Hprice Htax Hopex Hextra.
  pose proof (Qmult_le_0_compat _ _ Hfuel Hprice) as Hfc.
  pose proof (Qmult_le_0_compat _ _
                (Qmult_le_0_compat _ _ Hfuel Hfactor) Htax) as Ht.
  lra.
Qed.

Lemma capex_at_nonneg (capex : Q) (year : Z) :
  0 <= capex -> 0 <= capex_at capex year.
Proof.
  intros Hc. unfold capex_at. destruct (Z.eqb year 0); [exact Hc|].
  apply Qle_refl.
Qed.

Section ExpectedInputs.

Variable ui : Inputs.
Hypothesis Hconsumption : 0 <= ui_annual_consumption ui.
Hypothesis Htax : 0 <= ui_tax_rate ui.
Hypothesis Hopex : 0 <= ui_opex ui.
Hypothesis Hcapex : 0 <= ui_capex ui.
Hypothesis Hgain : 0 <= ui_efficiency_gain ui <= 1.

Lemma fuel_burn_nonneg (year : Z) :
  0 <= ui_annual_consumption ui * get_degradation_multiplier year.
Proof.
  apply Qmult_le_0_compat; [exact Hconsumption|].
  apply degradation_multiplier_pos.
Qed.

Lemma baseline_cash_flow_sign (year : Z) :
  In (ui_fuel_type ui) (keys EMISSION_FACTORS) ->
  - total (baseline_locals ui year) <= 0.
Proof.
  intros Hin. destruct (tables_cover _ Hin) as (_ & _ & Hf & Hp).
  unfold baseline_locals; cbn [total].
  setoid_replace (ui_annual_consumption ui * get_degradation_multiplier year
                 * price_of (ui_fuel_type ui)
                 + ui_annual_consumption ui * get_degradation_multiplier year
                   * factor_of (ui_fuel_type ui) * ui_tax_rate ui
                 + ui_opex ui)
    with (ui_annual_consumption ui * get_degradation_multiplier year
          * price_of (ui_fuel_type ui)
          + ui_annual_consumption ui * get_degradation_multiplier year
            * factor_of (ui_fuel_type ui) * ui_tax_rate ui
          + ui_opex ui + 0) by ring.
  apply cash_flow_nonpositive;
    try assumption; try apply fuel_burn_nonneg; apply Qle_refl.
Qed.

Lemma tech_upgrade_cash_flow_sign (year : Z) :
  In (ui_fuel_type ui) (keys EMISSION_FACTORS) ->
  - total (tech_upgrade_locals ui year) <= 0.
Proof.
  intros Hin. destruct (tables_cover _ Hin) as (_ & _ & Hf & Hp).
  unfold tech_upgrade_locals; cbn [total].
  apply cash_flow_nonpositive; try assumption.
  - apply Qmult_le_0_compat; [apply fuel_burn_nonneg|].
    destruct Hgain as [_ Hle]. lra.
  - now apply capex_at_nonneg.
Qed.

Lemma alt_fuel_cash_flow_sign (alt_fuel : string) (year : Z) :
  In alt_fuel (keys EMISSION_FACTORS) ->
  - total (alt_fuel_locals ui alt_fuel year) <= 0.
Proof.
  intros Hin. destruct (tables_cover _ Hin) as (_ & _ & Hf & Hp).
  unfold alt_fuel_locals; cbn [total].
  apply cash_flow_nonpositive; try assumption.
  - apply fuel_burn_nonneg.
  - now apply capex_at_nonneg.
Qed.

End ExpectedInputs.

Lemma series_of_cash_flows_sign (g : Z -> year_locals) :
  (forall year, - total (g year) <= 0) ->
  Forall (fun cf => cf <= 0) (cash_flows (series_of g)).
Proof.
  intros Hsign. unfold series_of; cbn [cash_flows].
  apply Forall_map, Forall_forall. intros year _. apply Hsign.
Qed.

(** C2: when the fuel consumption, the tax rate, the OPEX and the CAPEX
    are non-negative and the efficiency gain lies in [0, 1], every entry
    of the cash-flow list of the Baseline loop, of the Tech Upgrade loop
    and of the loop of each alternative fuel is at most 0. *)
Theorem cash_flows_nonpositive (ui : Inputs) :
  In (ui_fuel_type ui) (keys EMISSION_FACTORS) ->
  0 <= ui_annual_consumption ui ->
  0 <= ui_tax_rate ui ->
  0 <= ui_opex ui ->
  0 <= ui_capex ui ->
  0 <= ui_efficiency_gain ui <= 1 ->
  (exists s, baseline_series ui = Ok s /\
             Forall (fun cf => cf <= 0) (cash_flows s)) /\
  (exists s, tech_upgrade_series ui = Ok s /\
             Forall (fun cf => cf <= 0) (cash_flows s)) /\
  (forall alt_fuel,
      In alt_fuel (alt_fuels ui) ->
      exists s, alt_fuel_series ui alt_fuel = Ok s /\
                Forall (fun cf => cf <= 0) (cash_flows s)).
Proof.
  intros Hin Hcons Htax Hopex Hcapex Hgain. split; [|split].
  - exists (series_of (baseline_locals ui)). split.
    + apply year_loop_closed. intros; now apply baseline_year_ok.
    + apply series_of_cash_flows_sign. intros year.
      now apply baseline_cash_flow_sign.
  - exists (series_of (tech_upgrade_locals ui)). split.
    + apply year_loop_closed. intros; now apply tech_upgrade_year_ok.
    + apply series_of_cash_flows_sign. intros year.
      now apply tech_upgrade_cash_flow_sign.
  - intros alt_fuel Halt. apply alt_fuels_spec in Halt.
    destruct Halt as [Halt _].
    exists (series_of (alt_fuel_locals ui alt_fuel)). split.
    + apply year_loop_closed. intros; now apply alt_fuel_year_ok.
    + apply series_of_cash_flows_sign. intros year.
      now apply alt_fuel_cash_flow_sign.
Qed.

Lemma cash_flows_nonpositive_witness :
  (exists s, baseline_series default_inputs = Ok s /\
             Forall (fun cf => cf <= 0) (cash_flows s)) /\
  (exists s, tech_upgrade_series default_inputs = Ok s /\
             Forall (fun cf => cf <= 0) (cash_flows s)) /\
  (forall alt_fuel,
      In alt_fuel (alt_fuels default_inputs) ->
      exists s, alt_fuel_series default_inputs alt_fuel = Ok s /\
                Forall (fun cf => cf <= 0) (cash_flows s)).
Proof.
  apply (cash_flows_nonpositive default_inputs).
  - simpl. tauto.
  - vm_compute. discriminate.
  - vm_compute. discriminate.
  - vm_compute. discriminate.
  - vm_compute. discriminate.
  - split; vm_compute; discriminate.
Defined.

(** ** The worked example *)

Lemma example_inputs_fuel (capex : Q) :
  In (ui_fuel_type (example_inputs capex)) (keys EMISSION_FACTORS).
Proof. simpl. tauto. Qed.

(** C9: for consumption 10000 t, fuel VLSFO, tax rate 100, OPEX 20000,
    CAPEX 500000 and efficiency gain 0.10, the first entries are 31140
    tCO2 and 9,134,000 for Baseline, and a fuel burn of 9000 t, 28026 tCO2
    and 8,722,600 for Tech Upgrade.  The CAPEX enters the Tech Upgrade cost
    of year 0 only, and no Baseline cost: with another CAPEX the Baseline
    costs and the later Tech Upgrade costs are the same. *)
Theorem worked_example_year_0 :
  default_inputs = example_inputs (500000 # 1) /\
  exists st baseline tech year0,
    run default_inputs = Ok st /\
    dict_get (scenarios st) "Baseline" = Some baseline /\
    dict_get (scenarios st) "Tech Upgrade" = Some tech /\
    nth 0 (sc_emissions baseline) 0 == 31140 /\
    nth 0 (sc_costs baseline) 0 == 9134000 /\
    tech_upgrade_year default_inputs 0 = Ok year0 /\
    fuel year0 == 9000 /\
    e year0 == 28026 /\
    total year0 == 8722600 /\
    nth 0 (sc_emissions tech) 0 == 28026 /\
    nth 0 (sc_costs tech) 0 == 8722600 /\
    forall capex : Q,
    exists st' baseline' tech',
      run (example_inputs capex) = Ok st' /\
      dict_get (scenarios st') "Baseline" = Some baseline' /\
      dict_get (scenarios st') "Tech Upgrade" = Some tech' /\
      sc_costs baseline' = sc_costs baseline /\
      nth 0 (sc_costs tech') 0 == 8222600 + capex /\
      forall i : nat,
        (1 <= i < Z.to_nat YEARS)%nat ->
        nth i (sc_costs tech') 0 = nth i (sc_costs tech) 0.
Proof.
  split; [reflexivity|].
  pose proof (example_inputs_fuel (500000 # 1)) as Hin.
  exists (run_value default_inputs),
    (scenario_of (series_of (baseline_locals default_inputs))),
    (scenario_of (series_of (tech_upgrade_locals default_inputs))),
    (tech_upgrade_locals default_inputs 0).
  split; [now apply run_ok|].
  split; [now apply run_value_baseline|].
  split; [now apply run_value_tech_upgrade|].
  do 2 (split; [vm_compute; reflexivity|]).
  split; [now apply tech_upgrade_year_ok|].
  do 5 (split; [vm_compute; reflexivity|]).
  intros capex.
  pose proof (example_inputs_fuel capex) as Hin'.
  exists (run_value (example_inputs capex)),
    (scenario_of (series_of (baseline_locals (example_inputs capex)))),
    (scenario_of (series_of (tech_upgrade_locals (example_inputs capex)))).
  split; [now apply run_ok|].
  split; [now apply run_value_baseline|].
  split; [now apply run_value_tech_upgrade|].
  split; [reflexivity|].
  unfold scenario_of, series_of; cbn [sc_costs costs].
  split.
  - rewrite nth_map_range by (simpl; lia).
    unfold tech_upgrade_locals; cbn [total].
    change (capex_at (ui_capex (example_inputs capex)) (Z.of_nat 0))
      with capex.
    apply Qplus_comp; [vm_compute; reflexivity | reflexivity].
  - intros i Hi. rewrite !nth_map_range by lia.
    unfold tech_upgrade_locals; cbn [total]. unfold capex_at.
    destruct (Z.eqb_spec (Z.of_nat i) 0) as [Hz|_]; [lia|].
    reflexivity.
Qed.

Lemma worked_example_year_0_witness :
  exists st tech st' tech',
    run default_inputs = Ok st /\
    dict_get (scenarios st) "Tech Upgrade" = Some tech /\
    run (example_inputs 0) = Ok st' /\
    dict_get (scenarios st') "Tech Upgrade" = Some tech' /\
    nth 0 (sc_costs tech) 0 == 8722600 /\
    nth 3 (sc_costs tech') 0 = nth 3 (sc_costs tech) 0.
Proof.
  destruct worked_example_year_0
    as (_ & st & b & tu & y0 & Hrun & _ & Htu & _ & _ & _ & _ & _ & _ & _
        & Hcost & Hcapex).
  destruct (Hcapex 0) as (st' & b' & tu' & Hrun' & _ & Htu' & _ & _ & Hlater).
  exists st, tu, st', tu'. repeat split; try assumption.
  apply (Hlater 3%nat). simpl. lia.
Defined.

(** ** Summary metrics *)

(** C8 fails as stated: with the default inputs the run has a "Baseline"
    scenario, [payback_summary] has no entry for it, and its table cell is
    the placeholder ["-"]. *)
Lemma baseline_has_no_payback :
  exists st,
    run default_inputs = Ok st /\
    In "Baseline"%string (keys (scenarios st)) /\
    dict_get (payback_summary st) "Baseline" = None /\
    payback_cell (payback_summary st) "Baseline" = dash /\
    ~ every_scenario_has_payback st.
Proof.
  exists (run_value default_inputs).
  assert (Hin : In "Baseline"%string
                   (keys (scenarios (run_value default_inputs))))
    by (vm_compute; tauto).
  assert (Hget : dict_get (payback_summary (run_value default_inputs))
                          "Baseline" = None)
    by (vm_compute; reflexivity).
  split; [apply run_ok; simpl; tauto|].
  split; [exact Hin|]. split; [exact Hget|].
  split; [unfold payback_cell; now rewrite Hget|].
  intros Hall. destruct (Hall _ Hin) as (_ & (p & Hp & _) & _).
  rewrite Hget in Hp. discriminate Hp.
Qed.

Lemma payback_of_series (g : Z -> year_locals) :
  (exists n, calculate_payback_period (cash_flows (series_of g)) = PyInt n /\
             (1 <= n <= YEARS)%Z) \/
  calculate_payback_period (cash_flows (series_of g)) = exceeds_horizon.
Proof.
  destruct (payback_period_range (cash_flows (series_of g)))
    as [[n [Hn Hr]]|Hs]; [left|now right].
  exists n. split; [exact Hn|].
  destruct (series_of_lengths g) as (_ & _ & Hlen).
  rewrite Hlen in Hr. unfold YEARS in *. lia.
Qed.

Lemma summary_table_labels (st : summaries) :
  map row_scenario (summary_table st) = keys (npv_summary st).
Proof.
  unfold summary_table, keys. rewrite map_map.
  apply map_ext. now intros [k v].
Qed.

Lemma payback_cell_some (d : dict pyval) (k : string) (p : pyval) :
  dict_get d k = Some p -> payback_cell d k = p.
Proof. intros H. unfold payback_cell. now rewrite H. Qed.

(** C8, as the code has it: every scenario of a run has an NPV; every
    scenario other than "Baseline" has a payback value, a year count
    between 1 and [YEARS] or the sentinel string, and that value is its
    table cell; "Baseline" has no payback value and its table cell is the
    placeholder ["-"]. *)
Theorem summary_metrics_spec (ui : Inputs) :
  In (ui_fuel_type ui) (keys EMISSION_FACTORS) ->
  exists st,
    run ui = Ok st /\
    map row_scenario (summary_table st) = keys (scenarios st) /\
    (forall label,
        In label (keys (scenarios st)) ->
        exists v, dict_get (npv_summary st) label = Some v) /\
    (forall label,
        In label (keys (scenarios st)) ->
        label <> "Baseline"%string ->
        exists p,
          dict_get (payback_summary st) label = Some p /\
          payback_cell (payback_summary st) label = p /\
          ((exists n, p = PyInt n /\ (1 <= n <= YEARS)%Z) \/
           p = exceeds_horizon)) /\
    dict_get (payback_summary st) "Baseline" = None /\
    payback_cell (payback_summary st) "Baseline" = dash.
Proof.
  intros Hin. exists (run_value ui).
  split; [now apply run_ok|].
  rewrite summary_table_labels.
  destruct (run_value_shape ui Hin) as (-> & -> & ->).
  unfold keys, payback_cell.
  destruct (alt_fuels_cases ui Hin)
    as [[_ ->]|[[_ ->]|[[_ ->]|[[_ ->]|[_ ->]]]]];
    cbn [map fst In];
    (split; [reflexivity|]);
    (split; [|split; [|split; reflexivity]]);
    try (intros label [<-|[<-|[<-|[<-|[<-|[<-|[]]]]]]];
         eexists; reflexivity);
    intros label [<-|[<-|[<-|[<-|[<-|[<-|[]]]]]]] Hne;
    try congruence;
    (eexists; split; [reflexivity|]; split; [reflexivity|]);
    apply payback_of_series.
Qed.

Lemma summary_metrics_spec_witness :
  exists st p,
    run default_inputs = Ok st /\
    dict_get (payback_summary st) "Switch to LNG" = Some p /\
    ((exists n, p = PyInt n /\ (1 <= n <= YEARS)%Z) \/ p = exceeds_horizon).
Proof.
  destruct (summary_metrics_spec default_inputs)
    as (st & Hrun & Hrows & _ & Hpay & _).
  - simpl. tauto.
  - destruct (Hpay "Switch to LNG"%string) as (p & Hp & _ & Hval).
    + rewrite <- Hrows.
      assert (Hst : Ok st = Ok (run_value default_inputs))
        by (rewrite <- Hrun; apply run_ok; simpl; tauto).
      injection Hst as ->. vm_compute. tauto.
    + discriminate.
    + exists st, p. repeat split; assumption.
Defined.

(** * Further properties of the code *)

(** ** Degradation multiplier: period and upper bound *)

Lemma cycle_shift (year : Z) :
  ((year + DRYDOCK_CYCLE) mod DRYDOCK_CYCLE = year mod DRYDOCK_CYCLE)%Z.
Proof.
  unfold DRYDOCK_CYCLE.
  replace (year + 5)%Z with (year + 1 * 5)%Z by lia.
  apply Z_mod_plus_full.
Qed.

Lemma degradation_multiplier_shift (year : Z) :
  get_degradation_multiplier (year + DRYDOCK_CYCLE)
  = get_degradation_multiplier year.
Proof.
  unfold get_degradation_multiplier. now rewrite cycle_shift.
Qed.

(** X1: the multiplier has period [DRYDOCK_CYCLE] over all integers,
    negative ones included, and never exceeds [1.01 ^ 4 = 1.04060401]. *)
Theorem degradation_multiplier_periodic (year : Z) :
  get_degradation_multiplier (year + DRYDOCK_CYCLE)
  = get_degradation_multiplier year /\
  get_degradation_multiplier (year - DRYDOCK_CYCLE)
  = get_degradation_multiplier year /\
  get_degradation_multiplier year <= 1.04060401.
Proof.
  split; [apply degradation_multiplier_shift|]. split.
  - rewrite <- (degradation_multiplier_shift (year - DRYDOCK_CYCLE)).
    f_equal. lia.
  - unfold get_degradation_multiplier, py_pow.
    pose proof (Z.mod_pos_bound year DRYDOCK_CYCLE eq_refl) as Hb.
    unfold DRYDOCK_CYCLE in *.
    assert (Hm : (year mod 5 = 0 \/ year mod 5 = 1 \/ year mod 5 = 2 \/
                  year mod 5 = 3 \/ year mod 5 = 4)%Z) by lia.
    destruct Hm as [->|[->|[->|[->| ->]]]]; vm_compute; discriminate.
Qed.

(** ** Payback period of a pure-cost sequence *)

(** When no cash flow is positive the loop decides at the first entry. *)
Lemma payback_loop_costs (cfs : list Q) :
  Forall (fun cf => cf <= 0) cfs ->
  forall (k : Z) (acc : Q),
    acc < 0 -> payback_loop (enumerate_from k cfs) acc = exceeds_horizon.
Proof.
  induction 1 as [|cf rest Hcf Hrest IH]; intros k acc Hacc.
  - reflexivity.
  - cbn [enumerate_from payback_loop].
    assert (Hlt : acc + cf < 0) by lra.
    apply Qle_bool_false in Hlt. rewrite Hlt. apply IH. lra.
Qed.

(** X3: for cash flows that are all at most 0 the result is 1 when the
    first cash flow is 0, and the sentinel otherwise; no later year is
    ever returned. *)
Theorem payback_period_pure_cost (cfs : list Q) :
  Forall (fun cf => cf <= 0) cfs ->
  (calculate_payback_period cfs = PyInt 1 \/
   calculate_payback_period cfs = exceeds_horizon) /\
  (calculate_payback_period cfs = PyInt 1 <->
   exists c rest, cfs = c :: rest /\ c == 0).
Proof.
  intros Hall. unfold calculate_payback_period, enumerate.
  destruct Hall as [|c rest Hc Hrest].
  - split; [now right|]. split; [discriminate|].
    intros (c & rest & Heq & _). discriminate Heq.
  - cbn [enumerate_from payback_loop].
    destruct (Qle_bool 0 (0 + c)) eqn:Hb.
    + apply Qle_bool_iff in Hb. split; [now left|].
      split; [|reflexivity]. intros _. exists c, rest.
      split; [reflexivity|]. lra.
    + apply Qle_bool_false in Hb.
      rewrite (payback_loop_costs rest Hrest) by exact Hb.
      split; [now right|]. split; [discriminate|].
      intros (c' & rest' & [= <- <-] & Hz). lra.
Qed.

Lemma payback_period_pure_cost_witness :
  calculate_payback_period [0; -3; -4] = PyInt 1 /\
  (calculate_payback_period [-2; 0; 0] = PyInt 1 \/
   calculate_payback_period [-2; 0; 0] = exceeds_horizon).
Proof.
  assert (H1 : Forall (fun cf => cf <= 0) [0; -3; -4])
    by (repeat constructor; discriminate).
  assert (H2 : Forall (fun cf => cf <= 0) [-2; 0; 0])
    by (repeat constructor; discriminate).
  split.
  - apply (proj2 (proj2 (payback_period_pure_cost [0; -3; -4] H1))).
    exists 0, [-3; -4]. split; reflexivity.
  - apply (proj1 (payback_period_pure_cost [-2; 0; 0] H2)).
Defined.

(** ** Efficiency reduction *)



(** ** Net present value: rate zero and sign *)

Lemma npv_acc_rate_zero (cfs : list Q) :
  forall (k : Z) (acc : Q), npv_acc k cfs 0 acc == acc + Qsum cfs.
Proof.
  induction cfs as [|cf rest IH]; intros k acc.
  - simpl. ring.
  - cbn [npv_acc Qsum]. rewrite IH.
    assert (Hp : (1 + 0) ^ k == 1).
    { setoid_replace (1 + 0) with 1 by ring. apply Qpower_1. }
    rewrite Hp. field.
Qed.

(** X5: at a discount rate of 0 the NPV is the plain sum of the cash
    flows. *)
Theorem npv_rate_zero (cfs : list Q) :
  exists v, calculate_npv cfs 0 = Ok v /\ v == Qsum cfs.
Proof.
  exists (npv_acc 0 cfs 0 0). split.
  - apply calculate_npv_value. discriminate.
  - rewrite npv_acc_rate_zero. ring.
Qed.

Lemma discount_factor_pos (r : Q) (k : Z) : -1 < r -> 0 < / (1 + r) ^ k.
Proof.
  intros Hr. apply Qinv_lt_0_compat. apply Qpower_0_lt. lra.
Qed.

Lemma npv_acc_le (r : Q) (Hr : -1 < r) (cfs : list Q) :
  Forall (fun cf => cf <= 0) cfs ->
  forall (k : Z) (acc : Q), npv_acc k cfs r acc <= acc.
Proof.
  induction 1 as [|cf rest Hcf Hrest IH]; intros k acc.
  - apply Qle_refl.
  - cbn [npv_acc]. eapply Qle_trans; [apply IH|].
    pose proof (discount_factor_pos r k Hr) as Hd.
    assert (Hterm : cf / (1 + r) ^ k <= 0).
    { unfold Qdiv.
      setoid_replace 0 with (0 * / (1 + r) ^ k) by ring.
      apply Qmult_le_compat_r; [exact Hcf | now apply Qlt_le_weak]. }
    lra.
Qed.

(** ** The year loop *)

Lemma range_in (n year : Z) : (0 <= year < n)%Z -> In year (range n).
Proof.
  intros Hy. unfold range. apply in_map_iff.
  exists (Z.to_nat year). split; [lia|]. apply in_seq. lia.
Qed.

Lemma for_in_series_ok (body : Z -> result year_locals) (years : list Z) :
  forall s s' : series,
    for_in years (fun year s => y <- body year ;; Ok (append_year s y)) s
    = Ok s' ->
    cash_flows s = map Qopp (costs s) ->
    length (emissions s) = length (costs s) ->
    cash_flows s' = map Qopp (costs s') /\
    length (emissions s') = length (costs s') /\
    length (costs s') = (length (costs s) + length years)%nat.
Proof.
  induction years as [|year rest IH]; intros s s' Hrun Hcf Hlen.
  - injection Hrun as <-. repeat split; try assumption. simpl. lia.
  - cbn [for_in] in Hrun. destruct (body year) as [y|err]; [|discriminate].
    cbn [bind] in Hrun. apply IH in Hrun.
    + destruct Hrun as (H1 & H2 & H3). repeat split; try assumption.
      rewrite H3. unfold append_year; cbn [costs].
      rewrite length_app. simpl. lia.
    + unfold append_year; cbn [cash_flows costs].
      now rewrite map_app, Hcf.
    + unfold append_year; cbn [emissions costs].
      rewrite !length_app. simpl. lia.
Qed.

Lemma for_in_series_raise (body : Z -> result year_locals)
  (years : list Z) :
  forall (s : series) (err : exn),
    for_in years (fun year s => y <- body year ;; Ok (append_year s y)) s
    = Raise err ->
    exists year, In year years /\ body year = Raise err.
Proof.
  induction years as [|year rest IH]; intros s err Hrun.
  - discriminate Hrun.
  - cbn [for_in] in Hrun. destruct (body year) as [y|err'] eqn:Hbody.
    + cbn [bind] in Hrun. destruct (IH _ _ Hrun) as (year' & Hin & Hr).
      exists year'. split; [now right | exact Hr].
    + injection Hrun as <-. exists year. split; [now left | exact Hbody].
Qed.

Lemma for_in_series_total (body : Z -> result year_locals)
  (years : list Z) :
  (forall year, In year years -> exists y, body year = Ok y) ->
  forall s : series,
  exists s',
    for_in years (fun year s => y <- body year ;; Ok (append_year s y)) s
    = Ok s'.
Proof.
  induction years as [|year rest IH]; intros Hbody s.
  - now exists s.
  - cbn [for_in]. destruct (Hbody year (or_introl eq_refl)) as [y ->].
    cbn [bind]. apply IH. intros y' Hy'. apply Hbody. now right.
Qed.

(** X8: whatever the loop body, a scenario loop that ends has filled its
    three lists with [YEARS] entries each, and each cash flow is the
    negated cost of its year; a loop that raises passes on the exception
    of the body at some year of the horizon; a loop whose body returns in
    every year of the horizon ends. *)
Theorem year_loop_invariant (body : Z -> result year_locals) :
  (forall s,
      year_loop body = Ok s ->
      cash_flows s = map Qopp (costs s) /\
      length (emissions s) = Z.to_nat YEARS /\
      length (costs s) = Z.to_nat YEARS /\
      length (cash_flows s) = Z.to_nat YEARS) /\
  (forall err,
      year_loop body = Raise err ->
      exists year, (0 <= year < YEARS)%Z /\ body year = Raise err) /\
  ((forall year, (0 <= year < YEARS)%Z -> exists y, body year = Ok y) ->
   exists s, year_loop body = Ok s).
Proof.
  unfold year_loop. split; [|split].
  - intros s Hrun.
    destruct (for_in_series_ok body _ _ _ Hrun eq_refl eq_refl)
      as (Hcf & Hlen & Hcount).
    rewrite range_length in Hcount. cbn [empty_series costs length] in Hcount.
    repeat split.
    + exact Hcf.
    + now rewrite Hlen, Hcount.
    + exact Hcount.
    + now rewrite Hcf, length_map, Hcount.
  - intros err Hrun.
    destruct (for_in_series_raise body _ _ _ Hrun) as (year & Hin & Hr).
    exists year. split; [now apply in_range | exact Hr].
  - intros Hbody. apply for_in_series_total.
    intros year Hin. apply Hbody. now apply in_range.
Qed.

Lemma year_loop_invariant_witness :
  (exists s, year_loop (alt_fuel_year default_inputs "LNG") = Ok s) /\
  (exists year,
      (0 <= year < YEARS)%Z /\
      alt_fuel_year default_inputs "Coal" year = Raise (KeyError "Coal")).
Proof.
  split.
  - apply (proj2 (proj2 (year_loop_invariant
                           (alt_fuel_year default_inputs "LNG")))).
    intros year _. eexists. reflexivity.
  - apply (proj1 (proj2 (year_loop_invariant
                           (alt_fuel_year default_inputs "Coal")))).
    reflexivity.
Defined.

(** ** When the script raises *)

(** X9: the script runs to its end exactly for a fuel type of the table;
    for any other fuel type it raises the lookup error for that fuel
    type; it never raises a division by zero. *)
Theorem run_raises_iff (ui : Inputs) :
  ((exists st, run ui = Ok st) <->
   In (ui_fuel_type ui) (keys EMISSION_FACTORS)) /\
  (run ui = Raise (KeyError (ui_fuel_type ui)) <->
   ~ In (ui_fuel_type ui) (keys EMISSION_FACTORS)) /\
  run ui <> Raise ZeroDivisionError.
Proof.
  destruct (in_dec string_dec (ui_fuel_type ui) (keys EMISSION_FACTORS))
    as [Hin|Hnotin].
  - rewrite (run_ok ui Hin). split; [|split].
    + split; [intros _; exact Hin | intros _; now eexists].
    + split; [discriminate | intros H; contradiction].
    + discriminate.
  - rewrite (run_unknown_fuel ui Hnotin). split; [|split].
    + split; [intros [st Hst]; discriminate Hst | intros H; contradiction].
    + split; [intros _; exact Hnotin | reflexivity].
    + discriminate.
Qed.

Lemma run_raises_iff_witness :
  (exists st, run default_inputs = Ok st) /\
  run (mkInputs 50000 "Coal" 10000 100 20000 500000 (1 # 10))
  = Raise (KeyError "Coal").
Proof.
  split.
  - apply (proj2 (proj1 (run_raises_iff default_inputs))).
    simpl. tauto.
  - apply (proj2 (proj1 (proj2 (run_raises_iff
             (mkInputs 50000 "Coal" 10000 100 20000 500000 (1 # 10)))))).
    simpl. intuition discriminate.
Defined.

(** ** Entries of the three dictionaries *)

Lemma fuel_prices_nodup : NoDup (keys FUEL_PRICES).
Proof.
  repeat constructor; simpl; intuition discriminate.
Qed.

Lemma factor_of_in (k : string) (factor : Q) :
  In (k, factor) EMISSION_FACTORS -> factor_of k = factor.
Proof.
  intros Hin. unfold factor_of.
  now rewrite (dict_get_nodup _ _ _ emission_factors_nodup Hin).
Qed.

Lemma price_of_in (k : string) (price : Q) :
  In (k, price) FUEL_PRICES -> price_of k = price.
Proof.
  intros Hin. unfold price_of.
  now rewrite (dict_get_nodup _ _ _ fuel_prices_nodup Hin).
Qed.

Lemma price_of_pos (k : string) :
  In k (keys EMISSION_FACTORS) -> 0 < price_of k.
Proof.
  simpl. intros [<-|[<-|[<-|[<-|[<-|[]]]]]]; reflexivity.
Qed.

(** The entries stored under the label of an alternative fuel. *)
Lemma run_value_switch (ui : Inputs) (k : string) :
  In (ui_fuel_type ui) (keys EMISSION_FACTORS) ->
  In k (alt_fuels ui) ->
  dict_get (scenarios (run_value ui)) (switch_label k)
  = Some (scenario_of (series_of (alt_fuel_locals ui k))) /\
  dict_get (npv_summary (run_value ui)) (switch_label k)
  = Some (npv_value (cash_flows (series_of (alt_fuel_locals ui k)))) /\
  dict_get (payback_summary (run_value ui)) (switch_label k)
  = Some (calculate_payback_period
            (cash_flows (series_of (alt_fuel_locals ui k)))).
Proof.
  intros Hin. destruct (run_value_shape ui Hin) as (-> & -> & ->).
  destruct (alt_fuels_cases ui Hin)
    as [[_ ->]|[[_ ->]|[[_ ->]|[[_ ->]|[_ ->]]]]];
    cbn [In]; intros [<-|[<-|[<-|[<-|[]]]]];
    (split; [|split]); reflexivity.
Qed.

Lemma run_value_npv_baseline (ui : Inputs) :
  In (ui_fuel_type ui) (keys EMISSION_FACTORS) ->
  dict_get (npv_summary (run_value ui)) "Baseline"
  = Some (npv_value (cash_flows (series_of (baseline_locals ui)))).
Proof.
  intros Hin. destruct (run_value_shape ui Hin) as (_ & -> & _).
  reflexivity.
Qed.

(** Every entry of [npv_summary] is the NPV of the cash flows of one of
    the loops, and so is every entry of [payback_summary]. *)
Lemma run_value_npv_entries (ui : Inputs) (label : string) (v : Q) :
  In (ui_fuel_type ui) (keys EMISSION_FACTORS) ->
  dict_get (npv_summary (run_value ui)) label = Some v ->
  v = npv_value (cash_flows (series_of (baseline_locals ui))) \/
  v = npv_value (cash_flows (series_of (tech_upgrade_locals ui))) \/
  exists k, In k (alt_fuels ui) /\
            v = npv_value (cash_flows (series_of (alt_fuel_locals ui k))).
Proof.
  intros Hin Hget. apply dict_get_some_in in Hget.
  destruct (run_value_shape ui Hin) as (_ & Hn & _).
  rewrite Hn in Hget. cbn [In] in Hget.
  destruct Hget as [[= _ <-]|[[= _ <-]|Hmap]]; [now left|now right; left|].
  right; right. apply in_map_iff in Hmap.
  destruct Hmap as (k & [= _ <-] & Hk). now exists k.
Qed.

Lemma run_value_payback_entries (ui : Inputs) (label : string)
  (p : pyval) :
  In (ui_fuel_type ui) (keys EMISSION_FACTORS) ->
  dict_get (payback_summary (run_value ui)) label = Some p ->
  p = calculate_payback_period
        (cash_flows (series_of (tech_upgrade_locals ui))) \/
  exists k, In k (alt_fuels ui) /\
            p = calculate_payback_period
                  (cash_flows (series_of (alt_fuel_locals ui k))).
Proof.
  intros Hin Hget. apply dict_get_some_in in Hget.
  destruct (run_value_shape ui Hin) as (_ & _ & Hp).
  rewrite Hp in Hget. cbn [In] in Hget.
  destruct Hget as [[= _ <-]|Hmap]; [now left|].
  right. apply in_map_iff in Hmap.
  destruct Hmap as (k & [= _ <-] & Hk). now exists k.
Qed.

(** ** Fuel-switch scenarios *)

(** X10: for a supported fuel other than the vessel's, the scenario
    "Switch to {fuel}" holds, for every year of the horizon, the emissions
    [consumption * multiplier * factor] of that fuel and the cost
    [fuel spend + carbon tax + OPEX], plus the CAPEX in year 0 only; the
    efficiency gain plays no part. *)
Theorem fuel_switch_scenario (ui : Inputs) (alt_fuel : string)
  (factor price : Q) :
  In (ui_fuel_type ui) (keys EMISSION_FACTORS) ->
  alt_fuel <> ui_fuel_type ui ->
  In (alt_fuel, factor) EMISSION_FACTORS ->
  In (alt_fuel, price) FUEL_PRICES ->
  exists st sc,
    run ui = Ok st /\
    dict_get (scenarios st) ("Switch to " ++ alt_fuel) = Some sc /\
    forall i : nat,
      (i < Z.to_nat YEARS)%nat ->
      let burn :=
        ui_annual_consumption ui * get_degradation_multiplier (Z.of_nat i) in
      nth i (sc_emissions sc) 0 == burn * factor /\
      nth i (sc_costs sc) 0 ==
        burn * price + burn * factor * ui_tax_rate ui + ui_opex ui
        + (if Nat.eqb i 0 then ui_capex ui else 0).
Proof.
  intros Hin Hne Hfactor Hprice.
  assert (Halt : In alt_fuel (alt_fuels ui)).
  { apply alt_fuels_spec. split; [|exact Hne].
    apply (in_map fst) in Hfactor. exact Hfactor. }
  destruct (run_value_switch ui alt_fuel Hin Halt) as (Hsc & _ & _).
  exists (run_value ui), (scenario_of (series_of (alt_fuel_locals ui alt_fuel))).
  split; [now apply run_ok|]. split; [exact Hsc|].
  intros i Hi burn. subst burn.
  unfold scenario_of, series_of; cbn [sc_emissions sc_costs emissions costs].
  rewrite !nth_map_range by exact Hi.
  unfold alt_fuel_locals; cbn [e total].
  rewrite (factor_of_in _ _ Hfactor), (price_of_in _ _ Hprice).
  split; [reflexivity|].
  unfold capex_at. destruct i as [|i]; reflexivity.
Qed.

Lemma fuel_switch_scenario_witness :
  exists st sc,
    run default_inputs = Ok st /\
    dict_get (scenarios st) "Switch to LNG" = Some sc /\
    nth 0 (sc_emissions sc) 0
    == 10000 * get_degradation_multiplier 0 * (2750 # 1000).
Proof.
  destruct (fuel_switch_scenario default_inputs "LNG" (2750 # 1000) 800)
    as (st & sc & Hrun & Hsc & Hnth).
  - simpl. tauto.
  - discriminate.
  - simpl. tauto.
  - simpl. tauto.
  - exists st, sc. split; [exact Hrun|]. split; [exact Hsc|].
    apply (Hnth 0%nat). simpl. lia.
Defined.

(** X11: when the vessel does not already burn ammonia, the scenario
    "Switch to Ammonia" has zero emissions in every year, and its costs do
    not depend on the carbon tax rate: they are the fuel spend at 1000 per
    tonne plus the OPEX, plus the CAPEX in year 0. *)
Theorem switch_to_ammonia (ui : Inputs) :
  In (ui_fuel_type ui) (keys EMISSION_FACTORS) ->
  ui_fuel_type ui <> "Ammonia"%string ->
  exists st sc,
    run ui = Ok st /\
    dict_get (scenarios st) "Switch to Ammonia" = Some sc /\
    Forall (fun x => x == 0) (sc_emissions sc) /\
    forall i : nat,
      (i < Z.to_nat YEARS)%nat ->
      nth i (sc_costs sc) 0 ==
        ui_annual_consumption ui * get_degradation_multiplier (Z.of_nat i)
        * 1000
        + ui_opex ui + (if Nat.eqb i 0 then ui_capex ui else 0).
Proof.
  intros Hin Hne.
  assert (Halt : In "Ammonia"%string (alt_fuels ui)).
  { apply alt_fuels_spec. split; [simpl; tauto | congruence]. }
  destruct (run_value_switch ui "Ammonia" Hin Halt) as (Hsc & _ & _).
  exists (run_value ui), (scenario_of (series_of (alt_fuel_locals ui "Ammonia"))).
  split; [now apply run_ok|]. split; [exact Hsc|].
  unfold scenario_of, series_of; cbn [sc_emissions sc_costs emissions costs].
  split.
  - apply Forall_map, Forall_forall. intros year _.
    unfold alt_fuel_locals; cbn [e].
    change (factor_of "Ammonia") with (0 # 1000). ring.
  - intros i Hi. rewrite nth_map_range by exact Hi.
    unfold alt_fuel_locals; cbn [total].
    change (factor_of "Ammonia") with (0 # 1000).
    change (price_of "Ammonia") with (1000 # 1).
    unfold capex_at, calculate_carbon_tax. destruct i as [|i].
    + cbn [Nat.eqb]. change (Z.of_nat 0 =? 0)%Z with true. cbv iota. ring.
    + cbn [Nat.eqb].
      destruct (Z.eqb_spec (Z.of_nat (S i)) 0) as [Hz|_]; [lia|].
      ring.
Qed.

Lemma switch_to_ammonia_witness :
  exists st sc,
    run default_inputs = Ok st /\
    dict_get (scenarios st) "Switch to Ammonia" = Some sc /\
    Forall (fun x => x == 0) (sc_emissions sc) /\
    nth 0 (sc_costs sc) 0 ==
      10000 * get_degradation_multiplier 0 * 1000 + 20000 + 500000.
Proof.
  destruct (switch_to_ammonia default_inputs)
    as (st & sc & Hrun & Hsc & Hzero & Hcost).
  - simpl. tauto.
  - discriminate.
  - exists st, sc. repeat split; try assumption.
    apply (Hcost 0%nat). simpl. lia.
Defined.

(** ** The drydock cycle in the series *)

(** X12: in the Baseline and the Tech Upgrade scenario the emissions of
    year [i + 5] are those of year [i], and so are the Baseline costs; the
    Tech Upgrade costs repeat for the years 1 to 4, and its cost of year 5
    is its cost of year 0 less the CAPEX. *)
Theorem drydock_cycle_in_series (ui : Inputs) :
  In (ui_fuel_type ui) (keys EMISSION_FACTORS) ->
  exists st baseline tech,
    run ui = Ok st /\
    dict_get (scenarios st) "Baseline" = Some baseline /\
    dict_get (scenarios st) "Tech Upgrade" = Some tech /\
    (forall i : nat,
        (i < 5)%nat ->
        nth (i + 5) (sc_emissions baseline) 0
        = nth i (sc_emissions baseline) 0 /\
        nth (i + 5) (sc_costs baseline) 0 = nth i (sc_costs baseline) 0 /\
        nth (i + 5) (sc_emissions tech) 0 = nth i (sc_emissions tech) 0 /\
        ((1 <= i)%nat ->
         nth (i + 5) (sc_costs tech) 0 = nth i (sc_costs tech) 0)) /\
    nth 5 (sc_costs tech) 0 + ui_capex ui == nth 0 (sc_costs tech) 0.
Proof.
  intros Hin.
  exists (run_value ui), (scenario_of (series_of (baseline_locals ui))),
    (scenario_of (series_of (tech_upgrade_locals ui))).
  split; [now apply run_ok|].
  split; [now apply run_value_baseline|].
  split; [now apply run_value_tech_upgrade|].
  unfold scenario_of, series_of; cbn [sc_emissions sc_costs emissions costs].
  split.
  - intros i Hi.
    rewrite !nth_map_range by (simpl; lia).
    replace (Z.of_nat (i + 5)) with (Z.of_nat i + DRYDOCK_CYCLE)%Z
      by (unfold DRYDOCK_CYCLE; lia).
    unfold baseline_locals, tech_upgrade_locals; cbn [e total].
    rewrite degradation_multiplier_shift.
    repeat split. intros Hpos. unfold capex_at, DRYDOCK_CYCLE.
    destruct (Z.eqb_spec (Z.of_nat i + 5) 0) as [Hz|_]; [lia|].
    destruct (Z.eqb_spec (Z.of_nat i) 0) as [Hz|_]; [lia|].
    reflexivity.
  - rewrite !nth_map_range by (simpl; lia).
    unfold tech_upgrade_locals; cbn [total].
    change (Z.of_nat 5) with (Z.of_nat 0 + DRYDOCK_CYCLE)%Z.
    rewrite degradation_multiplier_shift.
    unfold capex_at. cbn. ring.
Qed.

Lemma drydock_cycle_in_series_witness :
  exists st baseline,
    run default_inputs = Ok st /\
    dict_get (scenarios st) "Baseline" = Some baseline /\
    nth 7 (sc_costs baseline) 0 = nth 2 (sc_costs baseline) 0.
Proof.
  destruct (drydock_cycle_in_series default_inputs)
    as (st & b & tu & Hrun & Hb & _ & Hcycle & _).
  - simpl. tauto.
  - exists st, b. split; [exact Hrun|]. split; [exact Hb|].
    apply (Hcycle 2%nat). lia.
Defined.

(** ** Tech Upgrade costs against Baseline costs *)

(** X13: with a non-negative consumption, tax rate and efficiency gain,
    the Tech Upgrade cost of every year after year 0 is at most the
    Baseline cost of that year. *)
Theorem tech_upgrade_cost_at_most_baseline (ui : Inputs) :
  In (ui_fuel_type ui) (keys EMISSION_FACTORS) ->
  0 <= ui_annual_consumption ui ->
  0 <= ui_tax_rate ui ->
  0 <= ui_efficiency_gain ui ->
  exists st baseline tech,
    run ui = Ok st /\
    dict_get (scenarios st) "Baseline" = Some baseline /\
    dict_get (scenarios st) "Tech Upgrade" = Some tech /\
    forall i : nat,
      (1 <= i < Z.to_nat YEARS)%nat ->
      nth i (sc_costs tech) 0 <= nth i (sc_costs baseline) 0.
Proof.
  intros Hin Hcons Htax Hgain.
  exists (run_value ui), (scenario_of (series_of (baseline_locals ui))),
    (scenario_of (series_of (tech_upgrade_locals ui))).
  split; [now apply run_ok|].
  split; [now apply run_value_baseline|].
  split; [now apply run_value_tech_upgrade|].
  unfold scenario_of, series_of; cbn [sc_costs costs].
  intros i Hi. rewrite !nth_map_range by lia.
  unfold baseline_locals, tech_upgrade_locals; cbn [total].
  unfold capex_at.
  destruct (Z.eqb_spec (Z.of_nat i) 0) as [Hz|_]; [lia|].
  destruct (tables_cover _ Hin) as (_ & _ & Hf & Hp).
  pose proof (fuel_burn_nonneg ui Hcons (Z.of_nat i)) as Hburn.
  set (burn := ui_annual_consumption ui
               * get_degradation_multiplier (Z.of_nat i)) in *.
  pose proof (Qmult_le_0_compat _ _ Hburn Hp) as Hfc.
  pose proof (Qmult_le_0_compat _ _
                (Qmult_le_0_compat _ _ Hburn Hf) Htax) as Ht.
  pose proof (Qmult_le_0_compat _ _ Hgain
                (Qplus_le_compat _ _ _ _ Hfc Ht)) as Hsaved.
  lra.
Qed.

Lemma tech_upgrade_cost_at_most_baseline_witness :
  exists st baseline tech,
    run default_inputs = Ok st /\
    dict_get (scenarios st) "Baseline" = Some baseline /\
    dict_get (scenarios st) "Tech Upgrade" = Some tech /\
    nth 4 (sc_costs tech) 0 <= nth 4 (sc_costs baseline) 0.
Proof.
  destruct (tech_upgrade_cost_at_most_baseline default_inputs)
    as (st & b & tu & Hrun & Hb & Htu & Hle).
  - simpl. tauto.
  - discriminate.
  - discriminate.
  - discriminate.
  - exists st, b, tu. repeat split; try assumption.
    apply (Hle 4%nat). simpl. lia.
Defined.

(** ** Payback and NPV of a run *)

Lemma cash_flow_negative (fuel factor price tax opex extra : Q) :
  0 <= fuel -> 0 <= factor -> 0 < price -> 0 <= tax -> 0 <= opex ->
  0 <= extra ->
  0 < opex \/ 0 < fuel ->
  - (fuel * price + fuel * factor * tax + opex + extra) < 0.
Proof.
  intros Hfuel Hfactor Hprice Htax Hopex Hextra Hpos.
  pose proof (Qmult_le_0_compat _ _
                (Qmult_le_0_compat _ _ Hfuel Hfactor) Htax) as Ht.
  destruct Hpos as [Hpos|Hpos].
  - pose proof (Qmult_le_0_compat _ _ Hfuel (Qlt_le_weak _ _ Hprice)) as Hfc.
    lra.
  - pose proof (Qmult_lt_0_compat _ _ Hpos Hprice) as Hfc. lra.
Qed.

Lemma payback_of_negative (cfs : list Q) :
  Forall (fun cf => cf < 0) cfs ->
  calculate_payback_period cfs = exceeds_horizon.
Proof.
  intros Hneg. apply payback_loop_never. intros i Hi.
  rewrite Qplus_0_l. now apply cumulative_at_negative.
Qed.

Lemma series_of_cash_flows_negative (g : Z -> year_locals) :
  (forall year, - total (g year) < 0) ->
  Forall (fun cf => cf < 0) (cash_flows (series_of g)).
Proof.
  intros Hsign. unfold series_of; cbn [cash_flows].
  apply Forall_map, Forall_forall. intros year _. apply Hsign.
Qed.

Lemma degradation_multiplier_strictly_pos (year : Z) :
  0 < get_degradation_multiplier year.
Proof.
  apply Qlt_le_trans with 1; [reflexivity|].
  apply degradation_multiplier_ge_1.
Qed.

(** X14: with inputs inside their expected ranges and a positive OPEX, or
    a positive consumption and an efficiency gain below 1, every cost is
    positive, so no scenario ever pays back: every entry of
    [payback_summary] is the sentinel string. *)
Theorem payback_never_reached (ui : Inputs) :
  In (ui_fuel_type ui) (keys EMISSION_FACTORS) ->
  0 <= ui_annual_consumption ui ->
  0 <= ui_tax_rate ui ->
  0 <= ui_opex ui ->
  0 <= ui_capex ui ->
  0 <= ui_efficiency_gain ui <= 1 ->
  0 < ui_opex ui \/
  (0 < ui_annual_consumption ui /\ ui_efficiency_gain ui < 1) ->
  exists st,
    run ui = Ok st /\
    dict_get (payback_summary st) "Tech Upgrade" = Some exceeds_horizon /\
    forall label p,
      dict_get (payback_summary st) label = Some p -> p = exceeds_horizon.
Proof.
  intros Hin Hcons Htax Hopex Hcapex [Hg0 Hg1] Hpos.
  assert (Htech : calculate_payback_period
                    (cash_flows (series_of (tech_upgrade_locals ui)))
                  = exceeds_horizon).
  { apply payback_of_negative, series_of_cash_flows_negative.
    intros year. destruct (tables_cover _ Hin) as (_ & _ & Hf & _).
    pose proof (degradation_multiplier_strictly_pos year) as Hm.
    unfold tech_upgrade_locals; cbn [total].
    apply cash_flow_negative; try assumption.
    - apply Qmult_le_0_compat; [now apply fuel_burn_nonneg | lra].
    - now apply price_of_pos.
    - now apply capex_at_nonneg.
    - destruct Hpos as [Hopos|[Hcpos Hglt]]; [now left|right].
      apply Qmult_lt_0_compat; [now apply Qmult_lt_0_compat | lra]. }
  assert (Halt : forall k, In k (alt_fuels ui) ->
                 calculate_payback_period
                   (cash_flows (series_of (alt_fuel_locals ui k)))
                 = exceeds_horizon).
  { intros k Hk. apply alt_fuels_spec in Hk. destruct Hk as [Hk _].
    apply payback_of_negative, series_of_cash_flows_negative.
    intros year. destruct (tables_cover _ Hk) as (_ & _ & Hf & _).
    pose proof (degradation_multiplier_strictly_pos year) as Hm.
    unfold alt_fuel_locals; cbn [total].
    apply cash_flow_negative; try assumption.
    - now apply fuel_burn_nonneg.
    - now apply price_of_pos.
    - now apply capex_at_nonneg.
    - destruct Hpos as [Hopos|[Hcpos Hglt]]; [now left|right].
      now apply Qmult_lt_0_compat. }
  exists (run_value ui). split; [now apply run_ok|]. split.
  - destruct (run_value_shape ui Hin) as (_ & _ & ->).
    cbn [dict_get]. change (String.eqb "Tech Upgrade" "Tech Upgrade")
      with true. cbv iota. now rewrite Htech.
  - intros label p Hget.
    destruct (run_value_payback_entries ui label p Hin Hget)
      as [->|(k & Hk & ->)]; [exact Htech | now apply Halt].
Qed.

Lemma payback_never_reached_witness :
  exists st,
    run default_inputs = Ok st /\
    dict_get (payback_summary st) "Tech Upgrade" = Some exceeds_horizon.
Proof.
  destruct (payback_never_reached default_inputs)
    as (st & Hrun & Htu & _).
  - simpl. tauto.
  - discriminate.
  - discriminate.
  - discriminate.
  - discriminate.
  - split; discriminate.
  - left. reflexivity.
  - exists st. split; assumption.
Defined.

(** X15: with inputs inside their expected ranges every NPV of the
    summary is at most 0. *)
Theorem run_npv_nonpositive (ui : Inputs) :
  In (ui_fuel_type ui) (keys EMISSION_FACTORS) ->
  0 <= ui_annual_consumption ui ->
  0 <= ui_tax_rate ui ->
  0 <= ui_opex ui ->
  0 <= ui_capex ui ->
  0 <= ui_efficiency_gain ui <= 1 ->
  exists st,
    run ui = Ok st /\
    (exists v, dict_get (npv_summary st) "Baseline" = Some v) /\
    forall label v,
      dict_get (npv_summary st) label = Some v -> v <= 0.
Proof.
  intros Hin Hcons Htax Hopex Hcapex Hgain.
  assert (Hrate : -1 < DISCOUNT_RATE) by reflexivity.
  exists (run_value ui). split; [now apply run_ok|]. split.
  - eexists. now apply run_value_npv_baseline.
  - intros label v Hget.
    destruct (run_value_npv_entries ui label v Hin Hget)
      as [->|[->|(k & Hk & ->)]];
      unfold npv_value; apply (npv_acc_le _ Hrate);
      apply series_of_cash_flows_sign; intros year.
    + now apply baseline_cash_flow_sign.
    + now apply tech_upgrade_cash_flow_sign.
    + apply alt_fuels_spec in Hk. destruct Hk as [Hk _].
      now apply alt_fuel_cash_flow_sign.
Qed.

Lemma run_npv_nonpositive_witness :
  exists st v,
    run default_inputs = Ok st /\
    dict_get (npv_summary st) "Baseline" = Some v /\
    v <= 0.
Proof.
  destruct (run_npv_nonpositive default_inputs)
    as (st & Hrun & [v Hv] & Hall).
  - simpl. tauto.
  - discriminate.
  - discriminate.
  - discriminate.
  - discriminate.
  - split; discriminate.
  - exists st, v. split; [exact Hrun|]. split; [exact Hv|].
    apply (Hall _ _ Hv).
Defined.

(** ** What the investment does not touch *)

(** X16: the Baseline scenario and its NPV do not depend on the CAPEX nor
    on the efficiency gain, and the scenario, the NPV and the payback
    value of every fuel switch do not depend on the efficiency gain. *)
Theorem investment_independence (ui : Inputs) (capex gain : Q) :
  In (ui_fuel_type ui) (keys EMISSION_FACTORS) ->
  exists st st1 st2,
    run ui = Ok st /\
    run (with_investment ui capex gain) = Ok st1 /\
    run (with_investment ui (ui_capex ui) gain) = Ok st2 /\
    (exists sc v,
        dict_get (scenarios st) "Baseline" = Some sc /\
        dict_get (scenarios st1) "Baseline" = Some sc /\
        dict_get (npv_summary st) "Baseline" = Some v /\
        dict_get (npv_summary st1) "Baseline" = Some v) /\
    keys (scenarios st1) = keys (scenarios st) /\
    forall alt_fuel,
      In alt_fuel (keys EMISSION_FACTORS) ->
      alt_fuel <> ui_fuel_type ui ->
      exists sc v p,
        dict_get (scenarios st) ("Switch to " ++ alt_fuel) = Some sc /\
        dict_get (scenarios st2) ("Switch to " ++ alt_fuel) = Some sc /\
        dict_get (npv_summary st) ("Switch to " ++ alt_fuel) = Some v /\
        dict_get (npv_summary st2) ("Switch to " ++ alt_fuel) = Some v /\
        dict_get (payback_summary st) ("Switch to " ++ alt_fuel) = Some p /\
        dict_get (payback_summary st2) ("Switch to " ++ alt_fuel) = Some p.
Proof.
  intros Hin.
  set (ui1 := with_investment ui capex gain).
  set (ui2 := with_investment ui (ui_capex ui) gain).
  assert (Hin1 : In (ui_fuel_type ui1) (keys EMISSION_FACTORS)) by exact Hin.
  assert (Hin2 : In (ui_fuel_type ui2) (keys EMISSION_FACTORS)) by exact Hin.
  exists (run_value ui), (run_value ui1), (run_value ui2).
  do 3 (split; [now apply run_ok|]).
  split; [|split].
  - do 2 eexists.
    split; [now apply run_value_baseline|].
    split; [exact (run_value_baseline ui1 Hin1)|].
    split; [now apply run_value_npv_baseline|].
    exact (run_value_npv_baseline ui1 Hin1).
  - destruct (run_value_shape ui Hin) as (-> & _ & _).
    destruct (run_value_shape ui1 Hin1) as (-> & _ & _).
    unfold keys. cbn [map fst]. rewrite !map_map. reflexivity.
  - intros alt_fuel Hk Hne.
    assert (Halt : In alt_fuel (alt_fuels ui))
      by (apply alt_fuels_spec; now split).
    assert (Halt2 : In alt_fuel (alt_fuels ui2)) by exact Halt.
    destruct (run_value_switch ui alt_fuel Hin Halt) as (Hs & Hn & Hp).
    destruct (run_value_switch ui2 alt_fuel Hin2 Halt2)
      as (Hs2 & Hn2 & Hp2).
    do 3 eexists.
    split; [exact Hs|]. split; [exact Hs2|].
    split; [exact Hn|]. split; [exact Hn2|].
    split; [exact Hp | exact Hp2].
Qed.

Lemma investment_independence_witness :
  exists st st1 sc,
    run default_inputs = Ok st /\
    run (with_investment default_inputs 0 (1 # 2)) = Ok st1 /\
    dict_get (scenarios st) "Baseline" = Some sc /\
    dict_get (scenarios st1) "Baseline" = Some sc.
Proof.
  destruct (investment_independence default_inputs 0 (1 # 2))
    as (st & st1 & _ & Hrun & Hrun1 & _ & (sc & _ & Hb & Hb1 & _) & _).
  - simpl. tauto.
  - exists st, st1, sc. repeat split; assumption.
Defined.

(** ** The summary table *)

Lemma run_value_npv_keys (ui : Inputs) :
  In (ui_fuel_type ui) (keys EMISSION_FACTORS) ->
  keys (npv_summary (run_value ui)) = keys (scenarios (run_value ui)) /\
  NoDup (keys (npv_summary (run_value ui))) /\
  length (npv_summary (run_value ui)) = 6%nat.
Proof.
  intros Hin. destruct (run_value_shape ui Hin) as (-> & -> & _).
  unfold keys. cbn [map fst length]. rewrite !map_map, !length_map.
  cbn [fst].
  destruct (alt_fuels_cases ui Hin)
    as [[_ ->]|[[_ ->]|[[_ ->]|[[_ ->]|[_ ->]]]]];
    (split; [reflexivity|]); (split; [|reflexivity]);
    cbv [map switch_label append];
    repeat constructor; simpl; intuition discriminate.
Qed.

(** X17: the summary table of a run has one row per scenario, in the
    order of the scenarios; each row shows the NPV stored for its own
    label, and its payback cell is the payback value stored for that label
    or, when there is none, the placeholder. *)
Theorem summary_table_rows (ui : Inputs) :
  In (ui_fuel_type ui) (keys EMISSION_FACTORS) ->
  exists st,
    run ui = Ok st /\
    length (summary_table st) = 6%nat /\
    map row_scenario (summary_table st) = keys (scenarios st) /\
    forall row,
      In row (summary_table st) ->
      dict_get (npv_summary st) (row_scenario row) = Some (row_npv row) /\
      (dict_get (payback_summary st) (row_scenario row)
       = Some (row_payback row) \/
       (dict_get (payback_summary st) (row_scenario row) = None /\
        row_payback row = dash)).
Proof.
  intros Hin. exists (run_value ui).
  destruct (run_value_npv_keys ui Hin) as (Hkeys & Hnodup & Hlen).
  split; [now apply run_ok|].
  split; [unfold summary_table; now rewrite length_map|].
  split; [now rewrite summary_table_labels|].
  intros row Hrow. unfold summary_table in Hrow.
  apply in_map_iff in Hrow. destruct Hrow as ([k v] & <- & Hkv).
  cbn [row_scenario row_npv row_payback]. split.
  - now apply dict_get_nodup.
  - unfold payback_cell.
    destruct (dict_get (payback_summary (run_value ui)) k);
      [now left | now right].
Qed.

Lemma summary_table_rows_witness :
  exists st,
    run default_inputs = Ok st /\
    length (summary_table st) = 6%nat.
Proof.
  destruct (summary_table_rows default_inputs) as (st & Hrun & Hlen & _).
  - simpl. tauto.
  - exists st. split; assumption.
Defined.

(** * The program over its own numbers *)

(** ** Facts of binary64 arithmetic

    Proved from the specification of the primitive floats
    ([FloatAxioms]): signs of sums, division by one, zeros. *)

Module Binary64Facts.

Import FloatClass PrimFloat SpecFloat FloatOps FloatAxioms.

Lemma iter_pos_nat {X : Type} (f : X -> X) (p : positive) (x : X) :
  iter_pos f p x = Nat.iter (Pos.to_nat p) f x.
Proof.
  revert x. induction p as [p IH|p IH|]; intros x; cbn [iter_pos].
  - rewrite !IH, Pos2Nat.inj_xI. cbn [Nat.iter Nat.mul].
    rewrite Nat.add_0_r, <- Nat.iter_add, <- Nat.iter_succ_r. reflexivity.
  - rewrite !IH, Pos2Nat.inj_xO. cbn [Nat.mul].
    rewrite Nat.add_0_r, <- Nat.iter_add. reflexivity.
  - reflexivity.
Qed.

Lemma shr_1_m (mrs : shr_record) :
  (0 <= shr_m mrs)%Z -> shr_m (shr_1 mrs) = Z.div2 (shr_m mrs).
Proof.
  destruct mrs as [m r s]. cbn [shr_m]. intros Hm.
  destruct m as [|[p|p|]|p]; try reflexivity; lia.
Qed.

Lemma shr_iter_m (k : nat) (mrs : shr_record) :
  (0 <= shr_m mrs)%Z ->
  shr_m (Nat.iter k shr_1 mrs) = (shr_m mrs / 2 ^ Z.of_nat k)%Z.
Proof.
  intros Hm. induction k as [|k IH].
  - cbn. now rewrite Z.div_1_r.
  - rewrite Nat.iter_succ. rewrite shr_1_m.
    + rewrite IH, Z.div2_div, Z.div_div by lia.
      f_equal. rewrite Nat2Z.inj_succ, Z.pow_succ_r by lia. lia.
    + rewrite IH. apply Z.div_pos; lia.
Qed.

Lemma digits2_pos_lower (m : positive) :
  (2 ^ (Zpos (digits2_pos m) - 1) <= Zpos m)%Z.
Proof.
  induction m as [m IH|m IH|]; cbn [digits2_pos].
  - rewrite Pos2Z.inj_succ.
    replace (Z.succ (Zpos (digits2_pos m)) - 1)%Z
      with (Z.succ (Zpos (digits2_pos m) - 1))%Z by lia.
    rewrite Z.pow_succ_r by lia. lia.
  - rewrite Pos2Z.inj_succ.
    replace (Z.succ (Zpos (digits2_pos m)) - 1)%Z
      with (Z.succ (Zpos (digits2_pos m) - 1))%Z by lia.
    rewrite Z.pow_succ_r by lia. lia.
  - cbn. lia.
Qed.

(** A right shift to the exponent of the format leaves a non-zero
    mantissa non-zero. *)
Lemma shr_fexp_pos (m : positive) (e : Z) (l : location) :
  (emin <= e)%Z ->
  (0 < shr_m (fst (shr_fexp prec emax (Zpos m) e l)))%Z /\
  (emin <= snd (shr_fexp prec emax (Zpos m) e l))%Z.
Proof.
  intros He. unfold shr_fexp, shr.
  set (d := Zpos (digits2_pos m)).
  change (Zdigits2 (Zpos m)) with d.
  assert (Hn : (fexp prec emax (d + e) - e < d)%Z).
  { unfold fexp, SpecFloat.emin, prec, emax in *. subst d. lia. }
  assert (Hrec : shr_m (shr_record_of_loc (Zpos m) l) = Zpos m).
  { destruct l as [|[ | | ]]; reflexivity. }
  destruct (fexp prec emax (d + e) - e)%Z as [|p|p] eqn:En; cbn [fst snd].
  - rewrite Hrec. split; lia.
  - split; [|lia].
    rewrite iter_pos_nat, shr_iter_m by (rewrite Hrec; lia).
    rewrite Hrec, positive_nat_Z.
    pose proof (digits2_pos_lower m) as Hlow. fold d in Hlow.
    apply Z.div_str_pos. split; [apply Z.pow_pos_nonneg; lia|].
    eapply Z.le_trans; [|exact Hlow].
    apply Z.pow_le_mono_r; lia.
  - rewrite Hrec. split; lia.
Qed.

Lemma round_nearest_even_pos (m : Z) (l : location) :
  (0 < m)%Z -> (0 < round_nearest_even m l)%Z.
Proof.
  intros Hm. destruct l as [|[ | | ]]; cbn [round_nearest_even]; try lia.
  destruct (Z.even m); lia.
Qed.

(** Rounding a non-zero magnitude at an exponent of the format never gives
    a zero. *)
Lemma binary_round_aux_nonzero (s : bool) (m : positive) (e : Z)
  (l : location) :
  (emin <= e)%Z ->
  forall s', binary_round_aux prec emax s (Zpos m) e l <> S754_zero s'.
Proof.
  intros He s'. unfold binary_round_aux.
  pose proof (shr_fexp_pos m e l He) as [Hm1 He1].
  destruct (shr_fexp prec emax (Zpos m) e l) as [mrs1 e1].
  cbn [fst snd] in Hm1, He1.
  pose proof (round_nearest_even_pos _ (loc_of_shr_record mrs1) Hm1) as Hr.
  destruct (round_nearest_even (shr_m mrs1) (loc_of_shr_record mrs1))
    as [|m1|m1]; try lia.
  pose proof (shr_fexp_pos m1 e1 loc_Exact He1) as [Hm2 _].
  destruct (shr_fexp prec emax (Zpos m1) e1 loc_Exact) as [mrs2 e2].
  cbn [fst] in Hm2.
  destruct (shr_m mrs2); try lia.
  destruct (Z.leb e2 (emax - prec)); discriminate.
Qed.

Lemma binary_round_aux_sign (s : bool) (m : positive) (e : Z)
  (l : location) :
  match binary_round_aux prec emax s (Zpos m) e l with
  | S754_finite s' _ _ | S754_infinity s' | S754_zero s' => s' = s
  | S754_nan => True
  end.
Proof.
  unfold binary_round_aux.
  destruct (shr_fexp prec emax (Zpos m) e l) as [mrs1 e1].
  destruct (shr_fexp prec emax _ e1 loc_Exact) as [mrs2 e2].
  destruct (shr_m mrs2); try reflexivity.
  destruct (Z.leb e2 (emax - prec)); reflexivity.
Qed.

Lemma valid_exponent (s : bool) (m : positive) (e : Z) :
  SpecFloat.valid_binary prec emax (S754_finite s m e) = true ->
  (emin <= e)%Z.
Proof.
  cbn [SpecFloat.valid_binary]. unfold bounded, canonical_mantissa.
  intros H. apply andb_prop in H. destruct H as [H _].
  apply Z.eqb_eq in H. unfold fexp in H. lia.
Qed.

Lemma binary_round_negative (m : positive) (e : Z) :
  (emin <= e)%Z ->
  SFleb (S754_zero false) (binary_round prec emax true m e) = false.
Proof.
  intros He. unfold binary_round.
  destruct (shl_align m e (fexp prec emax (Zpos (digits2_pos m) + e)))
    as [mz ez] eqn:Hal.
  assert (Hez : (emin <= ez)%Z).
  { unfold shl_align in Hal.
    destruct (fexp prec emax (Zpos (digits2_pos m) + e) - e)%Z eqn:Hd;
      injection Hal as <- <-; try exact He.
    unfold fexp. lia. }
  pose proof (binary_round_aux_nonzero true mz ez loc_Exact Hez) as Hnz.
  pose proof (binary_round_aux_sign true mz ez loc_Exact) as Hs.
  destruct (binary_round_aux prec emax true (Zpos mz) ez loc_Exact)
    as [s'|s'| |s' m' e'].
  - exfalso. now apply (Hnz s').
  - subst s'. reflexivity.
  - reflexivity.
  - subst s'. reflexivity.
Qed.

(** The sum of a spec float that is not [>= 0] and a negative one is not
    [>= 0]. *)
Lemma SFadd_negative (x y : spec_float) :
  SpecFloat.valid_binary prec emax x = true ->
  SpecFloat.valid_binary prec emax y = true ->
  SFleb (S754_zero false) x = false ->
  SFltb y (S754_zero false) = true ->
  SFleb (S754_zero false) (SFadd prec emax x y) = false.
Proof.
  intros Vx Vy Hx Hy.
  destruct y as [sy|[|]| |[|] my ey]; try discriminate Hy;
    destruct x as [sx|[|]| |[|] mx ex]; try discriminate Hx;
    try reflexivity.
  cbn [SFadd].
  apply valid_exponent in Vx. apply valid_exponent in Vy.
  cbn [cond_Zopp Z.opp Z.add binary_normalize].
  apply binary_round_negative. lia.
Qed.

(** In binary64, [a + b] is not [>= 0] when [a] is not and [b < 0]. *)
Lemma add_negative (a b : float) :
  Num.leb Py.zero a = false ->
  Num.ltb b Py.zero = true ->
  Num.leb Py.zero (Num.add a b) = false.
Proof.
  change (leb 0 a = false -> ltb b 0 = true -> leb 0 (a + b) = false).
  rewrite !leb_spec, ltb_spec, add_spec.
  change (Prim2SF 0) with (S754_zero false).
  apply SFadd_negative; apply Prim2SF_valid.
Qed.

(** In binary64, [0 + b] is not [>= 0] when [b < 0]. *)
Lemma add_zero_negative (b : float) :
  Num.ltb b Py.zero = true ->
  Num.leb Py.zero (Num.add Py.zero b) = false.
Proof.
  change (ltb b 0 = true -> leb 0 (0 + b) = false).
  rewrite leb_spec, ltb_spec, add_spec.
  change (Prim2SF 0) with (S754_zero false).
  destruct (Prim2SF b) as [sy|[|]| |[|] my ey];
    try discriminate; reflexivity.
Qed.

Lemma SFeqb_zero (x : spec_float) :
  SFeqb x (S754_zero false) = true <-> exists s, x = S754_zero s.
Proof.
  split.
  - destruct x as [s|[|]| |[|] m e]; try discriminate. intros _. now exists s.
  - intros [s ->]. reflexivity.
Qed.

Lemma SFeqb_refl (x : spec_float) : x <> S754_nan -> SFeqb x x = true.
Proof.
  destruct x as [s|[|]| |[|] m e]; intros H; try reflexivity;
    try congruence; unfold SFeqb; cbn [SFcompare];
    rewrite Z.compare_refl, Pos.compare_cont_refl; reflexivity.
Qed.

Lemma SFeqb_not_nan (x : spec_float) : SFeqb x x = true -> x <> S754_nan.
Proof. intros H ->. discriminate H. Qed.

Lemma SFadd_zero_l (y : spec_float) :
  y <> S754_nan ->
  SFeqb (SFadd prec emax (S754_zero false) y) y = true.
Proof.
  intros Hy. destruct y as [[|]|[|]| |[|] m e]; try congruence;
    cbn [SFadd]; try reflexivity; apply SFeqb_refl; discriminate.
Qed.

Lemma SFdiv_zero (s : bool) (p : spec_float) :
  p <> S754_nan -> (forall s', p <> S754_zero s') ->
  exists s', SFdiv prec emax (S754_zero s) p = S754_zero s'.
Proof.
  intros Hn Hz. destruct p as [s'|s'| |s' m e]; cbn [SFdiv].
  - exfalso. now apply (Hz s').
  - now eexists.
  - congruence.
  - now eexists.
Qed.

Lemma SFadd_zeros (s1 s2 : bool) :
  exists s, SFadd prec emax (S754_zero s1) (S754_zero s2) = S754_zero s.
Proof. destruct s1, s2; cbn [SFadd]; now eexists. Qed.

Lemma div_eucl_mul (a b : Z) :
  (0 < b)%Z -> Z.div_eucl (a * b) b = (a, 0%Z).
Proof.
  intros Hb.
  assert (H : Z.div_eucl (a * b) b = ((a * b / b)%Z, ((a * b) mod b)%Z))
    by (unfold Z.div, Z.modulo; now destruct (Z.div_eucl (a * b) b)).
  rewrite H, Z.div_mul, Z.mod_mul by lia. reflexivity.
Qed.

Lemma SFdiv_one (sx : bool) (mx : positive) (ex : Z) :
  SpecFloat.valid_binary prec emax (S754_finite sx mx ex) = true ->
  SFdiv prec emax (S754_finite sx mx ex) (S754_finite false 4503599627370496 (-52)) = S754_finite sx mx ex.
Proof.
  cbn [SpecFloat.valid_binary]. unfold bounded, canonical_mantissa.
  intros H. apply andb_prop in H. destruct H as [Hc Hb].
  apply Z.eqb_eq in Hc.
  cbn [SFdiv]. rewrite xorb_false_r.
  unfold SFdiv_core_binary.
  set (d := Zpos (digits2_pos mx)) in *.
  change (Zdigits2 (Zpos mx)) with d.
  change (Zdigits2 4503599627370496) with 53%Z.
  assert (Hfexp : forall x, fexp prec emax x = Z.max (x - 53) (-1074)) by reflexivity.
  rewrite Hfexp in Hc. rewrite Hfexp.
  assert (Hd : (0 < d)%Z) by (subst d; lia).
  destruct (Z.eq_dec ex (-1074)) as [He|He].
  - (* subnormal range: no extra bit *)
    replace (Z.min (Z.max (d + ex - (53 + -52) - 53) (-1074)) (ex - -52))
      with ex by lia.
    replace (ex - -52 - ex)%Z with 52%Z by lia.
    rewrite Z.shiftl_mul_pow2 by lia.
    change (2 ^ 52)%Z with 4503599627370496%Z.
    rewrite div_eucl_mul by lia.
    change (new_location 4503599627370496 0) with loc_Exact.
    unfold binary_round_aux, shr_fexp.
    change (Zdigits2 (Zpos mx)) with d. rewrite Hfexp.
    replace (Z.max (d + ex - 53) (-1074) - ex)%Z with 0%Z by lia.
    cbn [shr shr_record_of_loc shr_m loc_of_shr_record round_nearest_even].
    change (Zdigits2 (Zpos mx)) with d. rewrite Hfexp.
    replace (Z.max (d + ex - 53) (-1074) - ex)%Z with 0%Z by lia.
    cbn [shr shr_m]. now rewrite Hb.
  - replace (Z.min (Z.max (d + ex - (53 + -52) - 53) (-1074)) (ex - -52))
      with (ex - 1)%Z by lia.
    replace (ex - -52 - (ex - 1))%Z with 53%Z by lia.
    rewrite Z.shiftl_mul_pow2 by lia.
    replace (Zpos mx * 2 ^ 53)%Z with (Zpos mx~0 * 4503599627370496)%Z
      by (change (2 ^ 53)%Z with (2 * 4503599627370496)%Z; lia).
    rewrite div_eucl_mul by lia.
    change (new_location 4503599627370496 0) with loc_Exact.
    unfold binary_round_aux, shr_fexp.
    change (Zdigits2 (Zpos mx~0)) with (Zpos (Pos.succ (digits2_pos mx))).
    rewrite Pos2Z.inj_succ. fold d. rewrite Hfexp.
    replace (Z.max (Z.succ d + (ex - 1) - 53) (-1074) - (ex - 1))%Z
      with 1%Z by lia.
    cbn [shr iter_pos shr_record_of_loc shr_1 shr_m loc_of_shr_record
         round_nearest_even orb].
    change (Zdigits2 (Zpos mx)) with d. rewrite Hfexp.
    replace (ex - 1 + 1)%Z with ex by lia.
    replace (Z.max (d + ex - 53) (-1074) - ex)%Z with 0%Z by lia.
    cbn [shr shr_m]. now rewrite Hb.
Qed.

Lemma Prim2SF_one : Prim2SF 1 = (S754_finite false 4503599627370496 (-52)).
Proof. reflexivity. Qed.

(** In binary64, [c / 1] is [c]. *)
Lemma div_one (c : float) : Num.truediv c Py.one = c.
Proof.
  change (c / 1 = c)%float.
  assert (H : Prim2SF (c / 1) = Prim2SF c).
  { rewrite div_spec, Prim2SF_one. unfold SF64div.
    pose proof (Prim2SF_valid c) as Hv.
    destruct (Prim2SF c) as [[|]|[|]| |s m e]; try reflexivity.
    now apply SFdiv_one. }
  rewrite <- (SF2Prim_Prim2SF (c / 1)), H. apply SF2Prim_Prim2SF.
Qed.

(** In binary64, [0 + c == c] for every [c] that is a number. *)
Lemma add_zero_l (c : float) :
  Num.eqb c c = true -> Num.eqb (Num.add Py.zero c) c = true.
Proof.
  change (eqb c c = true -> eqb (0 + c) c = true).
  rewrite !FloatAxioms.eqb_spec, add_spec.
  change (Prim2SF 0) with (S754_zero false).
  intros Hc. apply SFadd_zero_l. now apply SFeqb_not_nan.
Qed.

(** In binary64, a zero divided by a non-zero number is a zero. *)
Lemma div_zero (z p : float) :
  Num.eqb z Py.zero = true ->
  Num.eqb p Py.zero = false ->
  Num.eqb p p = true ->
  Num.eqb (Num.truediv z p) Py.zero = true.
Proof.
  change (eqb z 0 = true -> eqb p 0 = false -> eqb p p = true ->
          eqb (z / p) 0 = true).
  rewrite !FloatAxioms.eqb_spec, div_spec.
  change (Prim2SF 0) with (S754_zero false).
  intros Hz Hp Hn. apply SFeqb_zero in Hz. destruct Hz as [s ->].
  apply SFeqb_zero. apply SFdiv_zero.
  - now apply SFeqb_not_nan.
  - intros s' Heq. rewrite Heq in Hp. discriminate Hp.
Qed.

(** In binary64, the sum of two zeros is a zero. *)
Lemma add_zeros (a b : float) :
  Num.eqb a Py.zero = true ->
  Num.eqb b Py.zero = true ->
  Num.eqb (Num.add a b) Py.zero = true.
Proof.
  change (eqb a 0 = true -> eqb b 0 = true -> eqb (a + b) 0 = true).
  rewrite !FloatAxioms.eqb_spec, add_spec.
  change (Prim2SF 0) with (S754_zero false).
  intros Ha Hb. apply SFeqb_zero in Ha, Hb.
  destruct Ha as [s1 ->]. destruct Hb as [s2 ->].
  apply SFeqb_zero. apply SFadd_zeros.
Qed.

Lemma sum_zeros (l : list float) :
  Forall (fun x => Num.eqb x Py.zero = true) l ->
  forall acc, Num.eqb acc Py.zero = true ->
    Num.eqb (fold_left Num.add l acc) Py.zero = true.
Proof.
  induction 1 as [|x rest Hx Hrest IH]; intros acc Hacc.
  - exact Hacc.
  - cbn [fold_left]. apply IH. now apply add_zeros.
Qed.

End Binary64Facts.

(** ** The payback loop over any numbers *)

Section GenericPayback.

Context {num : Type} {A : Num.PyNum num}.

Lemma py_payback_loop_first (cfs : list num) :
  forall (k : Z) (acc : num) (i : nat),
    (i < length cfs)%nat ->
    Num.leb Py.zero (fold_left Num.add (firstn (S i) cfs) acc) = true ->
    (forall j, (j < i)%nat ->
       Num.leb Py.zero (fold_left Num.add (firstn (S j) cfs) acc) = false) ->
    Py.payback_loop (enumerate_from k cfs) acc = PyInt (k + Z.of_nat i + 1).
Proof.
  induction cfs as [|cf rest IH]; intros k acc i Hlen Hge Hlt.
  - simpl in Hlen. lia.
  - cbn [enumerate_from Py.payback_loop]. destruct i as [|i].
    + cbn [firstn fold_left] in Hge. rewrite Hge. f_equal. lia.
    + pose proof (Hlt 0%nat (Nat.lt_0_succ i)) as H0.
      cbn [firstn fold_left] in H0. rewrite H0.
      rewrite (IH (k + 1)%Z (Num.add acc cf) i).
      * f_equal. lia.
      * simpl in Hlen. lia.
      * exact Hge.
      * intros j Hj. apply (Hlt (S j)). lia.
Qed.

Lemma py_payback_loop_never (cfs : list num) :
  forall (k : Z) (acc : num),
    (forall i, (i < length cfs)%nat ->
       Num.leb Py.zero (fold_left Num.add (firstn (S i) cfs) acc) = false) ->
    Py.payback_loop (enumerate_from k cfs) acc = exceeds_horizon.
Proof.
  induction cfs as [|cf rest IH]; intros k acc Hlt.
  - reflexivity.
  - cbn [enumerate_from Py.payback_loop].
    pose proof (Hlt 0%nat (Nat.lt_0_succ _)) as H0.
    cbn [firstn fold_left] in H0. rewrite H0.
    apply IH. intros i Hi. apply (Hlt (S i)). simpl. lia.
Qed.

Lemma py_payback_loop_int (cfs : list num) :
  forall (k : Z) (acc : num) (n : Z),
    Py.payback_loop (enumerate_from k cfs) acc = PyInt n ->
    exists i : nat,
      n = (k + Z.of_nat i + 1)%Z /\
      (i < length cfs)%nat /\
      Num.leb Py.zero (fold_left Num.add (firstn (S i) cfs) acc) = true /\
      (forall j, (j < i)%nat ->
         Num.leb Py.zero (fold_left Num.add (firstn (S j) cfs) acc)
         = false).
Proof.
  induction cfs as [|cf rest IH]; intros k acc n Hn.
  - discriminate Hn.
  - cbn [enumerate_from Py.payback_loop] in Hn.
    destruct (Num.leb Py.zero (Num.add acc cf)) eqn:Hb.
    + injection Hn as <-. exists 0%nat. repeat split.
      * lia.
      * simpl. lia.
      * exact Hb.
      * intros j Hj. lia.
    + destruct (IH _ _ _ Hn) as (i & -> & Hlen & Hge & Hlt).
      exists (S i). repeat split.
      * lia.
      * simpl. lia.
      * exact Hge.
      * intros [|j] Hj; [exact Hb | apply Hlt; lia].
Qed.

Lemma py_payback_loop_sentinel (cfs : list num) :
  forall (k : Z) (acc : num),
    Py.payback_loop (enumerate_from k cfs) acc = exceeds_horizon ->
    forall i, (i < length cfs)%nat ->
      Num.leb Py.zero (fold_left Num.add (firstn (S i) cfs) acc) = false.
Proof.
  induction cfs as [|cf rest IH]; intros k acc Hs i Hi.
  - simpl in Hi. lia.
  - cbn [enumerate_from Py.payback_loop] in Hs.
    destruct (Num.leb Py.zero (Num.add acc cf)) eqn:Hb; [discriminate Hs|].
    destruct i as [|i]; [exact Hb|].
    apply (IH _ _ Hs). simpl in Hi. lia.
Qed.

(** A total that is not [>= 0] stays so while negative numbers are added,
    in any arithmetic where one such addition keeps it so. *)
Lemma py_payback_loop_negative (cfs : list num) :
  (forall a b, Num.leb Py.zero a = false -> Num.ltb b Py.zero = true ->
               Num.leb Py.zero (Num.add a b) = false) ->
  Forall (fun cf => Num.ltb cf Py.zero = true) cfs ->
  forall (k : Z) (acc : num),
    Num.leb Py.zero acc = false ->
    Py.payback_loop (enumerate_from k cfs) acc = exceeds_horizon.
Proof.
  intros Hadd. induction 1 as [|cf rest Hcf Hrest IH]; intros k acc Hacc.
  - reflexivity.
  - cbn [enumerate_from Py.payback_loop].
    rewrite (Hadd acc cf Hacc Hcf). apply IH. now apply Hadd.
Qed.

End GenericPayback.

(** On exact rationals the loop is the one of the first part. *)
Lemma py_payback_exact (cfs : list Q) :
  Py.calculate_payback_period cfs = calculate_payback_period cfs.
Proof.
  unfold Py.calculate_payback_period, calculate_payback_period.
  change (@Py.zero Q exact) with 0.
  generalize (enumerate cfs) as items, 0 as acc.
  induction items as [|[i cf] rest IH]; intros acc; [reflexivity|].
  cbn [Py.payback_loop payback_loop].
  change (Num.leb Py.zero (Num.add acc cf)) with (Qle_bool 0 (acc + cf)).
  destruct (Qle_bool 0 (acc + cf)); [reflexivity | apply IH].
Qed.

(** In binary64 a sequence of negative numbers never pays back. *)
Lemma py_payback_negative_binary64 (cfs : list PrimFloat.float) :
  Forall (fun cf => Num.ltb cf Py.zero = true) cfs ->
  Py.calculate_payback_period cfs = exceeds_horizon.
Proof.
  intros Hneg. unfold Py.calculate_payback_period, enumerate.
  destruct Hneg as [|cf rest Hcf Hrest]; [reflexivity|].
  cbn [enumerate_from Py.payback_loop].
  rewrite (Binary64Facts.add_zero_negative cf Hcf).
  apply (py_payback_loop_negative rest Binary64Facts.add_negative Hrest).
  now apply Binary64Facts.add_zero_negative.
Qed.

(** C1: [calculate_payback_period] keeps a running total that starts at 0
    and takes one addition per cash flow, in the arithmetic of the numbers
    it is given; it returns [i + 1] at the first index [i] where that
    total is [>= 0], and the sentinel [f"> {YEARS}"], a string and not a
    number, when no running total is [>= 0].  That is the case for every
    sequence of negative numbers, exact or binary64. *)
Theorem payback_period_spec :
  (forall (num : Type) (A : Num.PyNum num) (cfs : list num),
      (forall i : nat,
          (i < length cfs)%nat ->
          Num.leb Py.zero (Py.running_total cfs i) = true ->
          (forall j, (j < i)%nat ->
             Num.leb Py.zero (Py.running_total cfs j) = false) ->
          Py.calculate_payback_period cfs = PyInt (Z.of_nat i + 1)) /\
      ((forall i, (i < length cfs)%nat ->
          Num.leb Py.zero (Py.running_total cfs i) = false) ->
       Py.calculate_payback_period cfs = exceeds_horizon)) /\
  (forall cfs : list Q,
      Forall (fun cf => cf < 0) cfs ->
      Py.calculate_payback_period cfs = exceeds_horizon) /\
  (forall cfs : list PrimFloat.float,
      Forall (fun cf => Num.ltb cf Py.zero = true) cfs ->
      Py.calculate_payback_period cfs = exceeds_horizon) /\
  exceeds_horizon = PyStr "> 10" /\
  (forall n, exceeds_horizon <> PyInt n).
Proof.
  split; [|split; [|split; [|split]]].
  - intros num A cfs. split.
    + intros i Hlen Hge Hlt.
      unfold Py.calculate_payback_period, enumerate.
      rewrite (py_payback_loop_first cfs 0%Z Py.zero i Hlen Hge Hlt).
      reflexivity.
    + intros Hlt. now apply py_payback_loop_never.
  - intros cfs Hneg. rewrite py_payback_exact.
    apply payback_loop_never. intros i Hi.
    rewrite Qplus_0_l. now apply cumulative_at_negative.
  - apply py_payback_negative_binary64.
  - reflexivity.
  - discriminate.
Qed.

Lemma payback_period_spec_witness :
  Py.calculate_payback_period
    [Binary64.of_int (- 10 ^ 16); Binary64.of_int (- 1);
     Binary64.of_int (10 ^ 16)] = PyInt 3 /\
  Py.calculate_payback_period [-5; 3; 4; -1] = PyInt 3 /\
  Py.calculate_payback_period [-1; -2] = exceeds_horizon /\
  Py.calculate_payback_period
    [Binary64.of_int (- 1); Binary64.of_int (- 2)] = exceeds_horizon.
Proof.
  destruct payback_period_spec as (Hgen & Hexact & Hfloat & _).
  split; [|split; [|split]].
  - apply (proj1 (Hgen _ _ _) 2%nat).
    + simpl. lia.
    + reflexivity.
    + intros [|[|j]] Hj; [reflexivity | reflexivity | lia].
  - apply (proj1 (Hgen _ _ _) 2%nat).
    + simpl. lia.
    + reflexivity.
    + intros [|[|j]] Hj; [reflexivity | reflexivity | lia].
  - apply Hexact. repeat constructor.
  - apply Hfloat. repeat constructor.
Defined.

(** X2: in the arithmetic of the numbers it is given, a returned year
    count [n] means that index [n - 1] exists, that the running total is
    [>= 0] there and at no earlier index; the sentinel means that no
    running total is [>= 0].  An empty sequence gives the sentinel. *)
Theorem payback_period_sound (num : Type) (A : Num.PyNum num)
  (cfs : list num) :
  (forall n,
      Py.calculate_payback_period cfs = PyInt n ->
      exists i : nat,
        n = (Z.of_nat i + 1)%Z /\
        (i < length cfs)%nat /\
        Num.leb Py.zero (Py.running_total cfs i) = true /\
        (forall j, (j < i)%nat ->
           Num.leb Py.zero (Py.running_total cfs j) = false)) /\
  (Py.calculate_payback_period cfs = exceeds_horizon ->
   forall i, (i < length cfs)%nat ->
     Num.leb Py.zero (Py.running_total cfs i) = false) /\
  Py.calculate_payback_period (@nil num) = exceeds_horizon.
Proof.
  split; [|split; [|reflexivity]].
  - intros n Hn.
    destruct (py_payback_loop_int cfs 0%Z Py.zero n Hn)
      as (i & -> & Hlen & Hge & Hlt).
    exists i. repeat split; assumption.
  - intros Hs. exact (py_payback_loop_sentinel cfs 0%Z Py.zero Hs).
Qed.

Lemma payback_period_sound_witness :
  (exists i : nat,
      3%Z = (Z.of_nat i + 1)%Z /\
      (i < 3)%nat /\
      Num.leb Py.zero
        (Py.running_total
           [Binary64.of_int (- 10 ^ 16); Binary64.of_int (- 1);
            Binary64.of_int (10 ^ 16)] i) = true) /\
  (forall i, (i < 2)%nat ->
     Num.leb Py.zero (Py.running_total [-1; -2] i) = false).
Proof.
  split.
  - assert (Hrun : Py.calculate_payback_period
                     [Binary64.of_int (- 10 ^ 16); Binary64.of_int (- 1);
                      Binary64.of_int (10 ^ 16)] = PyInt 3)
      by reflexivity.
    destruct (proj1 (payback_period_sound _ _ _) 3%Z Hrun)
      as (i & Hn & Hlen & Hge & _).
    exists i. repeat split; assumption.
  - apply (proj1 (proj2 (payback_period_sound _ _ [-1; -2]))). reflexivity.
Defined.

(** ** Net present value over any numbers *)

Lemma Z_to_N_of_nat (n : nat) : Z.to_N (Z.of_nat n) = N.of_nat n.
Proof. now rewrite <- nat_N_Z, N2Z.id. Qed.

Section GenericNpv.

Context {num : Type} {A : Num.PyNum num}.

Variable r : num.

Lemma npv_item_ok (i : nat) (cf p : num) :
  Py.pow (Num.add Py.one r) (N.of_nat i) = Ok p ->
  Num.eqb p Py.zero = false ->
  Py.npv_item r (Z.of_nat i, cf) = Ok (Num.truediv cf p).
Proof.
  intros Hp Hz. unfold Py.npv_item. rewrite Z_to_N_of_nat, Hp. cbn [bind].
  unfold Py.div. now rewrite Hz.
Qed.

Lemma npv_item_inv (i : nat) (cf v : num) :
  Py.npv_item r (Z.of_nat i, cf) = Ok v ->
  exists p, Py.pow (Num.add Py.one r) (N.of_nat i) = Ok p /\
            Num.eqb p Py.zero = false /\ v = Num.truediv cf p.
Proof.
  unfold Py.npv_item. rewrite Z_to_N_of_nat.
  destruct (Py.pow (Num.add Py.one r) (N.of_nat i)) as [p|err];
    cbn [bind]; [|discriminate].
  unfold Py.div. destruct (Num.eqb p Py.zero) eqn:Hz; [discriminate|].
  intros [= <-]. now exists p.
Qed.

Lemma npv_item_raise (i : nat) (cf : num) (err : exn) :
  Py.npv_item r (Z.of_nat i, cf) = Raise err ->
  Py.pow (Num.add Py.one r) (N.of_nat i) = Raise err \/
  (err = ZeroDivisionError /\
   exists p, Py.pow (Num.add Py.one r) (N.of_nat i) = Ok p /\
             Num.eqb p Py.zero = true).
Proof.
  unfold Py.npv_item. rewrite Z_to_N_of_nat.
  destruct (Py.pow (Num.add Py.one r) (N.of_nat i)) as [p|err'];
    cbn [bind]; [|now left].
  unfold Py.div. destruct (Num.eqb p Py.zero) eqn:Hz; [|discriminate].
  intros [= <-]. right. split; [reflexivity|]. now exists p.
Qed.

Lemma enumerate_from_succ (n : nat) (cfs : list num) :
  enumerate_from (Z.of_nat n + 1) cfs = enumerate_from (Z.of_nat (S n)) cfs.
Proof. f_equal. lia. Qed.

(** When every discount factor is defined and not zero, the generator
    yields the quotients, in order. *)
Lemma collect_npv_ok (cfs : list num) :
  forall (n : nat) (ps : list num),
    length ps = length cfs ->
    (forall i, (i < length cfs)%nat ->
       Py.pow (Num.add Py.one r) (N.of_nat (n + i)) = Ok (nth i ps Py.zero)
       /\ Num.eqb (nth i ps Py.zero) Py.zero = false) ->
    Py.collect (Py.npv_item r) (enumerate_from (Z.of_nat n) cfs)
    = Ok (map (fun '(cf, p) => Num.truediv cf p) (combine cfs ps)).
Proof.
  induction cfs as [|cf rest IH]; intros n ps Hlen Hps.
  - reflexivity.
  - destruct ps as [|p ps]; [discriminate Hlen|].
    cbn [enumerate_from Py.collect combine map].
    destruct (Hps 0%nat (Nat.lt_0_succ _)) as [Hp Hz].
    rewrite Nat.add_0_r in Hp. cbn [nth] in Hp, Hz.
    rewrite (npv_item_ok n cf p Hp Hz). cbn [bind].
    rewrite enumerate_from_succ, (IH (S n) ps); [reflexivity | |].
    + simpl in Hlen. lia.
    + intros i Hi. specialize (Hps (S i)). cbn [nth] in Hps.
      replace (S n + i)%nat with (n + S i)%nat by lia.
      apply Hps. simpl. lia.
Qed.

Lemma collect_npv_inv (cfs : list num) :
  forall (n : nat) (items : list num),
    Py.collect (Py.npv_item r) (enumerate_from (Z.of_nat n) cfs) = Ok items ->
    forall i, (i < length cfs)%nat ->
      exists p, Py.pow (Num.add Py.one r) (N.of_nat (n + i)) = Ok p /\
                Num.eqb p Py.zero = false.
Proof.
  induction cfs as [|cf rest IH]; intros n items Hrun i Hi.
  - simpl in Hi. lia.
  - cbn [enumerate_from Py.collect] in Hrun.
    destruct (Py.npv_item r (Z.of_nat n, cf)) as [v|err] eqn:Hitem;
      cbn [bind] in Hrun; [|discriminate].
    rewrite enumerate_from_succ in Hrun.
    destruct (Py.collect (Py.npv_item r) (enumerate_from (Z.of_nat (S n)) rest))
      as [vs|err] eqn:Hrest; cbn [bind] in Hrun; [|discriminate].
    destruct i as [|i].
    + rewrite Nat.add_0_r.
      destruct (npv_item_inv n cf v Hitem) as (p & Hp & Hz & _).
      now exists p.
    + replace (n + S i)%nat with (S n + i)%nat by lia.
      apply (IH (S n) vs Hrest). simpl in Hi. lia.
Qed.

Lemma collect_npv_total (cfs : list num) :
  forall n : nat,
    (forall i, (i < length cfs)%nat ->
       exists p, Py.pow (Num.add Py.one r) (N.of_nat (n + i)) = Ok p /\
                 Num.eqb p Py.zero = false) ->
    exists items,
      Py.collect (Py.npv_item r) (enumerate_from (Z.of_nat n) cfs) = Ok items.
Proof.
  induction cfs as [|cf rest IH]; intros n Hps.
  - now exists [].
  - cbn [enumerate_from Py.collect].
    destruct (Hps 0%nat (Nat.lt_0_succ _)) as (p & Hp & Hz).
    rewrite Nat.add_0_r in Hp.
    rewrite (npv_item_ok n cf p Hp Hz). cbn [bind].
    rewrite enumerate_from_succ.
    destruct (IH (S n)) as [items ->].
    + intros i Hi. replace (S n + i)%nat with (n + S i)%nat by lia.
      apply Hps. simpl. lia.
    + cbn [bind]. now eexists.
Qed.

(** A raise comes from the first index whose discount factor raises or is
    zero. *)
Lemma collect_npv_raise (cfs : list num) :
  forall (n : nat) (err : exn),
    Py.collect (Py.npv_item r) (enumerate_from (Z.of_nat n) cfs) = Raise err ->
    exists i,
      (i < length cfs)%nat /\
      (forall j, (j < i)%nat ->
         exists p, Py.pow (Num.add Py.one r) (N.of_nat (n + j)) = Ok p /\
                   Num.eqb p Py.zero = false) /\
      (Py.pow (Num.add Py.one r) (N.of_nat (n + i)) = Raise err \/
       (err = ZeroDivisionError /\
        exists p, Py.pow (Num.add Py.one r) (N.of_nat (n + i)) = Ok p /\
                  Num.eqb p Py.zero = true)).
Proof.
  induction cfs as [|cf rest IH]; intros n err Hrun.
  - discriminate Hrun.
  - cbn [enumerate_from Py.collect] in Hrun.
    destruct (Py.npv_item r (Z.of_nat n, cf)) as [v|err'] eqn:Hitem;
      cbn [bind] in Hrun.
    + rewrite enumerate_from_succ in Hrun.
      destruct (Py.collect (Py.npv_item r) (enumerate_from (Z.of_nat (S n)) rest))
        as [vs|err''] eqn:Hrest; cbn [bind] in Hrun; [discriminate|].
      injection Hrun as ->.
      destruct (IH (S n) err Hrest) as (i & Hi & Hbefore & Hat).
      exists (S i). split; [simpl; lia|]. split.
      * intros [|j] Hj.
        -- rewrite Nat.add_0_r.
           destruct (npv_item_inv n cf v Hitem) as (p & Hp & Hz & _).
           now exists p.
        -- replace (n + S j)%nat with (S n + j)%nat by lia.
           apply Hbefore. lia.
      * replace (n + S i)%nat with (S n + i)%nat by lia. exact Hat.
    + injection Hrun as ->. exists 0%nat.
      split; [simpl; lia|]. split; [intros j Hj; lia|].
      rewrite Nat.add_0_r. exact (npv_item_raise n cf err Hitem).
Qed.

End GenericNpv.

(** On exact rationals [calculate_npv] is the one of the first part. *)
Lemma py_npv_exact_from (r : Q) (cfs : list Q) :
  forall (n : nat) (acc : Q),
    sum_gen (fun '(i, cf) => py_div cf (py_pow (1 + r) i))
            (enumerate_from (Z.of_nat n) cfs) acc
    = (items <-
         Py.collect (Py.npv_item r) (enumerate_from (Z.of_nat n) cfs) ;;
       Ok (fold_left Qplus items acc)).
Proof.
  induction cfs as [|cf rest IH]; intros n acc.
  - reflexivity.
  - cbn [enumerate_from sum_gen Py.collect].
    assert (Hitem :
      Py.npv_item r (Z.of_nat n, cf)
      = py_div cf (py_pow (1 + r) (Z.of_nat n))).
    { unfold Py.npv_item. destruct n as [|n]; [reflexivity|].
      rewrite Z_to_N_of_nat. cbn [N.of_nat Py.pow].
      unfold py_pow. rewrite Nat2Z.inj_succ, <- Zpos_P_of_succ_nat.
      reflexivity. }
    rewrite Hitem.
    destruct (py_div cf (py_pow (1 + r) (Z.of_nat n))) as [v|err];
      cbn [bind]; [|reflexivity].
    replace (Z.of_nat n + 1)%Z with (Z.of_nat (S n)) by lia.
    rewrite IH.
    destruct (Py.collect _ (enumerate_from (Z.of_nat (S n)) rest));
      reflexivity.
Qed.

Lemma py_npv_exact (cfs : list Q) (r : Q) :
  Py.calculate_npv cfs r = calculate_npv cfs r.
Proof.
  unfold calculate_npv, enumerate. change 0%Z with (Z.of_nat 0).
  rewrite py_npv_exact_from. reflexivity.
Qed.

(** In binary64 the items of an all-zero sequence are zeros, when every
    discount factor is a non-zero number. *)
Lemma collect_npv_zeros_binary64 (r : PrimFloat.float)
  (cfs : list PrimFloat.float) :
  Forall (fun cf => Num.eqb cf Py.zero = true) cfs ->
  forall n : nat,
    (forall i, (i < length cfs)%nat ->
       exists p, Py.pow (Num.add Py.one r) (N.of_nat (n + i)) = Ok p /\
                 Num.eqb p Py.zero = false /\ Num.eqb p p = true) ->
    exists items,
      Py.collect (Py.npv_item r) (enumerate_from (Z.of_nat n) cfs)
      = Ok items /\
      Forall (fun x => Num.eqb x Py.zero = true) items.
Proof.
  induction 1 as [|cf rest Hcf Hrest IH]; intros n Hps.
  - exists []. split; [reflexivity | constructor].
  - cbn [enumerate_from Py.collect].
    destruct (Hps 0%nat (Nat.lt_0_succ _)) as (p & Hp & Hz & Hn).
    rewrite Nat.add_0_r in Hp.
    rewrite (npv_item_ok r n cf p Hp Hz). cbn [bind].
    rewrite enumerate_from_succ.
    destruct (IH (S n)) as (items & -> & Hitems).
    + intros i Hi. replace (S n + i)%nat with (n + S i)%nat by lia.
      apply Hps. simpl. lia.
    + cbn [bind]. eexists. split; [reflexivity|].
      constructor; [|exact Hitems].
      now apply Binary64Facts.div_zero.
Qed.



(** C4, as the code has it: [calculate_npv] returns a value exactly when
    every discount factor [(1 + r) ** i], for [i] below the length, is
    computed without raising and is not zero; otherwise it raises, at the
    first such index, the exception of [**] or, for a zero factor,
    [ZeroDivisionError].  On exact numbers it returns except at a rate of
    -1 with two or more cash flows.  In binary64 it returns for at most
    one cash flow, and it raises [ZeroDivisionError] at a rate of -1 with
    two or more cash flows, [OverflowError] at a rate of 1e200 with three
    or more, and [ZeroDivisionError] at a rate of -(1 - 2^-40) with 28 or
    more, where the factor underflows to zero. *)
Theorem npv_defined_iff :
  (forall (num : Type) (A : Num.PyNum num) (cfs : list num) (r : num),
      ((exists v, Py.calculate_npv cfs r = Ok v) <->
       (forall i, (i < length cfs)%nat -> Py.factor_ok r i)) /\
      (forall err,
          Py.calculate_npv cfs r = Raise err ->
          exists i,
            (i < length cfs)%nat /\
            (forall j, (j < i)%nat -> Py.factor_ok r j) /\
            (Py.pow (Num.add Py.one r) (N.of_nat i) = Raise err \/
             (err = ZeroDivisionError /\
              exists p, Py.pow (Num.add Py.one r) (N.of_nat i) = Ok p /\
                        Num.eqb p Py.zero = true)))) /\
  (forall (cfs : list Q) (r : Q),
      ((exists v, Py.calculate_npv cfs r = Ok v) <->
       (~ r == -1 \/ (length cfs <= 1)%nat)) /\
      (r == -1 -> (2 <= length cfs)%nat ->
       Py.calculate_npv cfs r = Raise ZeroDivisionError)) /\
  (forall (cfs : list PrimFloat.float) (r : PrimFloat.float),
      ((length cfs <= 1)%nat -> exists v, Py.calculate_npv cfs r = Ok v) /\
      ((2 <= length cfs)%nat ->
       Py.calculate_npv cfs (Binary64.of_int (- 1))
       = Raise ZeroDivisionError) /\
      ((3 <= length cfs)%nat ->
       Py.calculate_npv cfs (Binary64.of_int (10 ^ 200))
       = Raise OverflowError) /\
      ((28 <= length cfs)%nat ->
       Py.calculate_npv cfs (Binary64.lit ((1 - 2 ^ 40) # 2 ^ 40))
       = Raise ZeroDivisionError)).
Proof.
  split; [|split].
  - intros num A cfs r.
    unfold Py.calculate_npv, Py.sum_gen, enumerate, Py.factor_ok.
    change 0%Z with (Z.of_nat 0). split; [split|].
    + intros [v Hv].
      destruct (Py.collect (Py.npv_item r) (enumerate_from (Z.of_nat 0) cfs))
        as [items|err] eqn:Hc; [|discriminate Hv].
      exact (collect_npv_inv r cfs 0 items Hc).
    + intros Hps.
      destruct (collect_npv_total r cfs 0 Hps) as [items ->].
      cbn [bind]. now eexists.
    + intros err Hv.
      destruct (Py.collect (Py.npv_item r) (enumerate_from (Z.of_nat 0) cfs))
        as [items|err'] eqn:Hc; [discriminate Hv|].
      injection Hv as ->.
      exact (collect_npv_raise r cfs 0 err Hc).
  - intros cfs r. rewrite py_npv_exact.
    assert (Hraise : r == -1 -> (2 <= length cfs)%nat ->
                     calculate_npv cfs r = Raise ZeroDivisionError).
    { intros Hr Hlen.
      destruct cfs as [|c0 [|c1 rest]]; simpl in Hlen; try lia.
      apply calculate_npv_raises. rewrite Hr. reflexivity. }
    split; [split|exact Hraise].
    + intros [v Hv]. destruct (Qeq_dec r (-1)) as [Heq|Hne]; [|now left].
      right. destruct (le_lt_dec (length cfs) 1) as [Hle|Hgt]; [exact Hle|].
      rewrite Hraise in Hv by (assumption || lia). discriminate Hv.
    + intros [Hr|Hlen].
      * apply rate_not_minus_one in Hr. eexists.
        now apply calculate_npv_value.
      * destruct cfs as [|c [|c1 rest]]; simpl in Hlen; try lia.
        -- now exists 0.
        -- destruct (calculate_npv_single c r) as [v [Hv _]]. now exists v.
  - intros cfs r. split; [|split; [|split]].
    + intros Hlen. destruct cfs as [|c [|c1 rest]]; simpl in Hlen; try lia;
        eexists; reflexivity.
    + intros Hlen. destruct cfs as [|c0 [|c1 rest]]; simpl in Hlen; try lia.
      reflexivity.
    + intros Hlen.
      destruct cfs as [|c0 [|c1 [|c2 rest]]]; simpl in Hlen; try lia.
      vm_compute. reflexivity.
    + intros Hlen.
      do 28 (destruct cfs as [|? cfs]; [simpl in Hlen; lia|]).
      vm_compute. reflexivity.
Qed.

Lemma npv_defined_iff_witness :
  (exists v, Py.calculate_npv [-100; -50] (7 # 100) = Ok v) /\
  Py.calculate_npv [-100; -50] (-1) = Raise ZeroDivisionError /\
  Py.calculate_npv [Binary64.of_int 1; Binary64.of_int 1]
                   (Binary64.of_int (- 1)) = Raise ZeroDivisionError /\
  Py.calculate_npv
    [Binary64.of_int 1; Binary64.of_int 1; Binary64.of_int 1]
    (Binary64.of_int (10 ^ 200)) = Raise OverflowError /\
  Py.calculate_npv (repeat (Binary64.of_int 0) 28)
                   (Binary64.lit ((1 - 2 ^ 40) # 2 ^ 40))
  = Raise ZeroDivisionError.
Proof.
  destruct npv_defined_iff as (_ & Hexact & Hfloat).
  split; [|split; [|split; [|split]]].
  - apply (proj2 (proj1 (Hexact [-100; -50] (7 # 100)))).
    left. vm_compute. discriminate.
  - apply (proj2 (Hexact [-100; -50] (-1))).
    + reflexivity.
    + simpl. lia.
  - apply (proj1 (proj2 (Hfloat [Binary64.of_int 1; Binary64.of_int 1]
                                Py.zero))).
    simpl. lia.
  - apply (proj1 (proj2 (proj2
             (Hfloat [Binary64.of_int 1; Binary64.of_int 1;
                      Binary64.of_int 1] Py.zero)))).
    simpl. lia.
  - apply (proj2 (proj2 (proj2
             (Hfloat (repeat (Binary64.of_int 0) 28) Py.zero)))).
    simpl. lia.
Defined.

(** ** The exact reading is the model over exact numbers *)

Lemma for_in_refine {X S T : Type} (f : S -> T) (xs : list X)
  (body : X -> S -> result S) (body' : X -> T -> result T) :
  (forall x s, body' x (f s) = (s' <- body x s ;; Ok (f s'))) ->
  forall s, for_in xs body' (f s) = (s' <- for_in xs body s ;; Ok (f s')).
Proof.
  intros Hbody. induction xs as [|x rest IH]; intros s; [reflexivity|].
  cbn [for_in]. rewrite Hbody.
  destruct (body x s) as [s'|err]; cbn [bind]; [apply IH | reflexivity].
Qed.

Lemma dict_set_map {V W : Type} (f : V -> W) (d : dict V) (k : string)
  (v : V) :
  dict_set (dict_map f d) k (f v) = dict_map f (dict_set d k v).
Proof.
  induction d as [|[k' v'] rest IH]; [reflexivity|].
  cbn [dict_map map dict_set fst snd].
  destruct (String.eqb k' k); [reflexivity|].
  cbn [map fst snd]. f_equal. exact IH.
Qed.

Lemma py_multiplier_exact (year : Z) :
  Py.get_degradation_multiplier year = Ok (get_degradation_multiplier year).
Proof.
  unfold Py.get_degradation_multiplier, get_degradation_multiplier, py_pow.
  pose proof (Z.mod_pos_bound year DRYDOCK_CYCLE eq_refl) as Hb.
  destruct (year mod DRYDOCK_CYCLE)%Z as [|p|p]; [reflexivity..|lia].
Qed.

Section ExactScript.

Variable ui : Inputs.

Lemma py_baseline_year_exact (year : Z) :
  Py.baseline_year (py_inputs ui) year =
  (y <- baseline_year ui year ;; Ok (py_year y)).
Proof.
  unfold Py.baseline_year, baseline_year, Py.calculate_emissions,
    calculate_emissions, getitem.
  rewrite py_multiplier_exact. cbn [bind].
  change (@Py.EMISSION_FACTORS Q exact) with EMISSION_FACTORS.
  change (@Py.FUEL_PRICES Q exact) with FUEL_PRICES.
  change (Py.fuel_type (Py.vessel (py_inputs ui)))
    with (fuel_type (vessel ui)).
  destruct (dict_get EMISSION_FACTORS (fuel_type (vessel ui)));
    cbn [bind]; [|reflexivity].
  destruct (dict_get FUEL_PRICES (fuel_type (vessel ui)));
    cbn [bind]; reflexivity.
Qed.

Lemma py_tech_upgrade_year_exact (year : Z) :
  Py.tech_upgrade_year (py_inputs ui) year =
  (y <- tech_upgrade_year ui year ;; Ok (py_year y)).
Proof.
  unfold Py.tech_upgrade_year, tech_upgrade_year, Py.calculate_emissions,
    calculate_emissions, getitem.
  rewrite py_multiplier_exact. cbn [bind].
  change (@Py.EMISSION_FACTORS Q exact) with EMISSION_FACTORS.
  change (@Py.FUEL_PRICES Q exact) with FUEL_PRICES.
  change (Py.fuel_type (Py.vessel (py_inputs ui)))
    with (fuel_type (vessel ui)).
  destruct (dict_get EMISSION_FACTORS (fuel_type (vessel ui)));
    cbn [bind]; [|reflexivity].
  destruct (dict_get FUEL_PRICES (fuel_type (vessel ui)));
    cbn [bind]; [|reflexivity].
  unfold Py.capex_at, capex_at. destruct (Z.eqb year 0); reflexivity.
Qed.

Lemma py_alt_fuel_year_exact (alt_fuel : string) (year : Z) :
  Py.alt_fuel_year (py_inputs ui) alt_fuel year =
  (y <- alt_fuel_year ui alt_fuel year ;; Ok (py_year y)).
Proof.
  unfold Py.alt_fuel_year, alt_fuel_year, Py.calculate_emissions,
    calculate_emissions, getitem.
  rewrite py_multiplier_exact. cbn [bind].
  change (@Py.EMISSION_FACTORS Q exact) with EMISSION_FACTORS.
  change (@Py.FUEL_PRICES Q exact) with FUEL_PRICES.
  destruct (dict_get EMISSION_FACTORS alt_fuel); cbn [bind]; [|reflexivity].
  destruct (dict_get FUEL_PRICES alt_fuel); cbn [bind]; [|reflexivity].
  unfold Py.capex_at, capex_at. destruct (Z.eqb year 0); reflexivity.
Qed.

Lemma py_year_loop_exact (body : Z -> result year_locals)
  (body' : Z -> result (Py.year_locals Q)) :
  (forall year, body' year = (y <- body year ;; Ok (py_year y))) ->
  Py.year_loop body' = (s <- year_loop body ;; Ok (py_series s)).
Proof.
  intros Hbody. unfold Py.year_loop, year_loop.
  change (@Py.empty_series Q) with (py_series empty_series).
  apply for_in_refine. intros year s. rewrite Hbody.
  destruct (body year) as [y|err]; reflexivity.
Qed.

Lemma py_alt_fuel_step_exact (alt_fuel : string) (st : summaries) :
  Py.alt_fuel_step (py_inputs ui) alt_fuel (py_summaries st) =
  (st' <- alt_fuel_step ui alt_fuel st ;; Ok (py_summaries st')).
Proof.
  unfold Py.alt_fuel_step, alt_fuel_step, alt_fuel_series.
  change (Py.fuel_type (Py.vessel (py_inputs ui)))
    with (fuel_type (vessel ui)).
  destruct (String.eqb alt_fuel (fuel_type (vessel ui))); [reflexivity|].
  rewrite (py_year_loop_exact (alt_fuel_year ui alt_fuel))
    by apply py_alt_fuel_year_exact.
  destruct (year_loop (alt_fuel_year ui alt_fuel)) as [s|err];
    cbn [bind]; [|reflexivity].
  cbn [py_series Py.cash_flows Py.emissions Py.costs].
  rewrite py_npv_exact, py_payback_exact.
  change (@Py.DISCOUNT_RATE Q exact) with DISCOUNT_RATE.
  destruct (calculate_npv (cash_flows s) DISCOUNT_RATE) as [v|err];
    cbn [bind]; [|reflexivity].
  unfold py_summaries.
  cbn [scenarios npv_summary payback_summary
       Py.scenarios Py.npv_summary Py.payback_summary].
  rewrite <- dict_set_map. reflexivity.
Qed.

(** The script over exact numbers is the script of the exact reading. *)
Lemma py_run_exact :
  Py.run (py_inputs ui) = (st <- run ui ;; Ok (py_summaries st)).
Proof.
  unfold Py.run, run, baseline_series, tech_upgrade_series.
  rewrite (py_year_loop_exact (baseline_year ui))
    by apply py_baseline_year_exact.
  destruct (year_loop (baseline_year ui)) as [sb|err];
    cbn [bind]; [|reflexivity].
  cbn [py_series Py.cash_flows Py.emissions Py.costs].
  rewrite py_npv_exact.
  change (@Py.DISCOUNT_RATE Q exact) with DISCOUNT_RATE.
  destruct (calculate_npv (cash_flows sb) DISCOUNT_RATE) as [vb|err];
    cbn [bind]; [|reflexivity].
  rewrite (py_year_loop_exact (tech_upgrade_year ui))
    by apply py_tech_upgrade_year_exact.
  destruct (year_loop (tech_upgrade_year ui)) as [st|err];
    cbn [bind]; [|reflexivity].
  cbn [py_series Py.cash_flows Py.emissions Py.costs].
  rewrite py_npv_exact, py_payback_exact.
  destruct (calculate_npv (cash_flows st) DISCOUNT_RATE) as [vt|err];
    cbn [bind]; [|reflexivity].
  change (@Py.EMISSION_FACTORS Q exact) with EMISSION_FACTORS.
  match goal with
  | |- _ = (st <- for_in _ _ ?s0 ;; _) =>
      exact (for_in_refine py_summaries (keys EMISSION_FACTORS)
               (alt_fuel_step ui) (Py.alt_fuel_step (py_inputs ui))
               py_alt_fuel_step_exact s0)
  end.
Qed.

End ExactScript.

(** ** The scenario loops over any numbers *)

Section GenericLoops.

Context {num : Type} {A : Num.PyNum num}.

Lemma py_for_in_series (body : Z -> result (Py.year_locals num))
  (years : list Z) :
  forall s s' : Py.series num,
    for_in years (fun year s => y <- body year ;; Ok (Py.append_year s y)) s
    = Ok s' ->
    exists ys,
      Forall2 (fun year y => body year = Ok y) years ys /\
      Py.emissions s' = Py.emissions s ++ map Py.e ys /\
      Py.costs s' = Py.costs s ++ map Py.total ys.
Proof.
  induction years as [|year rest IH]; intros s s' Hrun.
  - injection Hrun as <-. exists []. rewrite !app_nil_r.
    repeat split. constructor.
  - cbn [for_in] in Hrun.
    destruct (body year) as [y|err] eqn:Hbody; [|discriminate].
    cbn [bind] in Hrun.
    destruct (IH _ _ Hrun) as (ys & Hys & He & Hc).
    exists (y :: ys). split; [now constructor|].
    rewrite He, Hc. unfold Py.append_year.
    cbn [Py.emissions Py.costs map]. now rewrite <- !app_assoc.
Qed.

Lemma py_for_in_total (body : Z -> result (Py.year_locals num))
  (years : list Z) :
  (forall year, In year years -> exists y, body year = Ok y) ->
  forall s : Py.series num,
  exists s',
    for_in years (fun year s => y <- body year ;; Ok (Py.append_year s y)) s
    = Ok s'.
Proof.
  induction years as [|year rest IH]; intros Hbody s.
  - now exists s.
  - cbn [for_in]. destruct (Hbody year (or_introl eq_refl)) as [y ->].
    cbn [bind]. apply IH. intros y' Hy'. apply Hbody. now right.
Qed.

Lemma Forall2_nth_range (P : Z -> Py.year_locals num -> Prop)
  (ys : list (Py.year_locals num)) (d : Py.year_locals num) (i : nat) :
  Forall2 P (range YEARS) ys ->
  (i < Z.to_nat YEARS)%nat ->
  P (Z.of_nat i) (nth i ys d).
Proof.
  intros Hall Hi. rewrite <- (range_nth YEARS i Hi).
  rewrite <- range_length in Hi.
  revert i Hi. induction Hall as [|year y years ys Hy Hrest IH];
    intros i Hi.
  - simpl in Hi. lia.
  - destruct i as [|i]; [exact Hy|]. apply IH. simpl in Hi. lia.
Qed.

(** Entry [i] of the emissions and costs of a loop that ended is what its
    body computed for year [i]. *)
Lemma py_year_loop_entries (body : Z -> result (Py.year_locals num))
  (s : Py.series num) (i : nat) :
  Py.year_loop body = Ok s ->
  (i < Z.to_nat YEARS)%nat ->
  exists y,
    body (Z.of_nat i) = Ok y /\
    nth i (Py.emissions s) Py.zero = Py.e y /\
    nth i (Py.costs s) Py.zero = Py.total y.
Proof.
  intros Hrun Hi. unfold Py.year_loop in Hrun.
  destruct (py_for_in_series body _ _ _ Hrun) as (ys & Hys & He & Hc).
  cbn [Py.empty_series Py.emissions Py.costs app] in He, Hc.
  assert (Hlen : length ys = Z.to_nat YEARS).
  { rewrite <- (Forall2_length Hys). apply range_length. }
  set (d := Py.mkYear Py.zero Py.zero Py.zero Py.zero Py.zero Py.zero).
  exists (nth i ys d). split; [|split].
  - exact (Forall2_nth_range _ ys d i Hys Hi).
  - rewrite He. change Py.zero with (Py.e d) at 1. apply map_nth.
  - rewrite Hc. change Py.zero with (Py.total d) at 1. apply map_nth.
Qed.

Variable ui : Py.Inputs num.

Lemma py_tables_cover (k : string) :
  In k (keys EMISSION_FACTORS) ->
  exists factor price,
    dict_get Py.EMISSION_FACTORS k = Some factor /\
    dict_get Py.FUEL_PRICES k = Some price.
Proof.
  simpl. intros [<-|[<-|[<-|[<-|[<-|[]]]]]]; do 2 eexists;
    split; reflexivity.
Qed.

Lemma py_baseline_year_inv (year : Z) (y : Py.year_locals num) :
  Py.baseline_year ui year = Ok y ->
  exists m factor,
    Py.get_degradation_multiplier year = Ok m /\
    dict_get Py.EMISSION_FACTORS (Py.ui_fuel_type ui) = Some factor /\
    Py.fuel y = Num.mul (Py.ui_annual_consumption ui) m /\
    Py.e y = Num.mul (Num.mul (Py.ui_annual_consumption ui) m) factor.
Proof.
  unfold Py.baseline_year, Py.calculate_emissions, getitem.
  cbn [Py.vessel Py.fuel_type Py.annual_fuel_consumption].
  destruct (Py.get_degradation_multiplier year) as [m|err];
    cbn [bind]; [|discriminate].
  destruct (dict_get Py.EMISSION_FACTORS (Py.ui_fuel_type ui))
    as [factor|]; cbn [bind]; [|discriminate].
  destruct (dict_get Py.FUEL_PRICES (Py.ui_fuel_type ui)) as [price|];
    cbn [bind]; [|discriminate].
  intros [= <-]. exists m, factor. repeat split.
Qed.

Lemma py_tech_upgrade_year_inv (year : Z) (y : Py.year_locals num) :
  Py.tech_upgrade_year ui year = Ok y ->
  exists m factor,
    Py.get_degradation_multiplier year = Ok m /\
    dict_get Py.EMISSION_FACTORS (Py.ui_fuel_type ui) = Some factor /\
    Py.fuel y =
      Num.mul (Num.mul (Py.ui_annual_consumption ui) m)
              (Num.sub Py.one (Py.ui_efficiency_gain ui)) /\
    Py.e y =
      Num.mul (Num.mul (Num.mul (Py.ui_annual_consumption ui) m)
                       (Num.sub Py.one (Py.ui_efficiency_gain ui)))
              factor.
Proof.
  unfold Py.tech_upgrade_year, Py.calculate_emissions, getitem,
    Py.apply_tech_efficiency_reduction.
  cbn [Py.vessel Py.fuel_type Py.annual_fuel_consumption].
  destruct (Py.get_degradation_multiplier year) as [m|err];
    cbn [bind]; [|discriminate].
  destruct (dict_get Py.EMISSION_FACTORS (Py.ui_fuel_type ui))
    as [factor|]; cbn [bind]; [|discriminate].
  destruct (dict_get Py.FUEL_PRICES (Py.ui_fuel_type ui)) as [price|];
    cbn [bind]; [|discriminate].
  intros [= <-]. exists m, factor. repeat split.
Qed.

(** With a fuel type of the tables the two loop bodies return in every
    year whose multiplier is defined. *)
Lemma py_year_bodies_total (year : Z) (m : num) :
  In (Py.ui_fuel_type ui) (keys EMISSION_FACTORS) ->
  Py.get_degradation_multiplier year = Ok m ->
  (exists y, Py.baseline_year ui year = Ok y) /\
  (exists y, Py.tech_upgrade_year ui year = Ok y).
Proof.
  intros Hin Hm. destruct (py_tables_cover _ Hin) as (f & p & Hf & Hp).
  unfold Py.baseline_year, Py.tech_upgrade_year, Py.calculate_emissions,
    getitem.
  cbn [Py.vessel Py.fuel_type]. rewrite Hm, Hf, Hp. cbn [bind].
  split; eexists; reflexivity.
Qed.

End GenericLoops.

(** In binary64, and on exact numbers, the multiplier of every year is
    defined. *)
Lemma py_multiplier_defined_binary64 (year : Z) :
  exists m : PrimFloat.float, Py.get_degradation_multiplier year = Ok m.
Proof.
  unfold Py.get_degradation_multiplier.
  pose proof (Z.mod_pos_bound year DRYDOCK_CYCLE eq_refl) as Hb.
  unfold DRYDOCK_CYCLE in *.
  assert (Hm : (year mod 5 = 0 \/ year mod 5 = 1 \/ year mod 5 = 2 \/
                year mod 5 = 3 \/ year mod 5 = 4)%Z) by lia.
  destruct Hm as [->|[->|[->|[->| ->]]]]; eexists; vm_compute; reflexivity.
Qed.

(** C10, as the code has it: in every year [i] of the horizon the two
    loops use the same fuel burn [b = consumption * multiplier(i)] and the
    same emission factor; the Baseline emissions are [b * factor] and the
    Tech Upgrade emissions are [(b * (1 - efficiency_gain)) * factor], in
    that order of evaluation.  In binary64 both loops end for every fuel
    type of the table.  On exact numbers the Tech Upgrade emissions of a
    run are [(1 - efficiency_gain)] times the Baseline emissions, year by
    year; in binary64 the two sides can differ in the last digit. *)
Theorem tech_upgrade_emissions_scaled :
  (forall (num : Type) (A : Num.PyNum num) (ui : Py.Inputs num)
          (baseline tech : Py.series num) (i : nat),
      Py.year_loop (Py.baseline_year ui) = Ok baseline ->
      Py.year_loop (Py.tech_upgrade_year ui) = Ok tech ->
      (i < Z.to_nat YEARS)%nat ->
      exists m factor,
        Py.get_degradation_multiplier (Z.of_nat i) = Ok m /\
        dict_get Py.EMISSION_FACTORS (Py.ui_fuel_type ui) = Some factor /\
        nth i (Py.emissions baseline) Py.zero =
          Num.mul (Num.mul (Py.ui_annual_consumption ui) m) factor /\
        nth i (Py.emissions tech) Py.zero =
          Num.mul (Num.mul (Num.mul (Py.ui_annual_consumption ui) m)
                           (Num.sub Py.one (Py.ui_efficiency_gain ui)))
                  factor) /\
  (forall ui : Py.Inputs PrimFloat.float,
      In (Py.ui_fuel_type ui) (keys EMISSION_FACTORS) ->
      exists baseline tech,
        Py.year_loop (Py.baseline_year ui) = Ok baseline /\
        Py.year_loop (Py.tech_upgrade_year ui) = Ok tech) /\
  (forall ui : Inputs,
      In (ui_fuel_type ui) (keys EMISSION_FACTORS) ->
      exists st baseline tech,
        run ui = Ok st /\
        dict_get (scenarios st) "Baseline" = Some baseline /\
        dict_get (scenarios st) "Tech Upgrade" = Some tech /\
        forall i : nat,
          (i < Z.to_nat YEARS)%nat ->
          nth i (sc_emissions tech) 0 ==
          (1 - ui_efficiency_gain ui) * nth i (sc_emissions baseline) 0).
Proof.
  split; [|split].
  - intros num A ui sb st i Hb Ht Hi.
    destruct (py_year_loop_entries _ sb i Hb Hi) as (yb & Hyb & Heb & _).
    destruct (py_year_loop_entries _ st i Ht Hi) as (yt & Hyt & Het & _).
    destruct (py_baseline_year_inv ui _ yb Hyb)
      as (m & factor & Hm & Hf & _ & Hbe).
    destruct (py_tech_upgrade_year_inv ui _ yt Hyt)
      as (m' & factor' & Hm' & Hf' & _ & Hte).
    rewrite Hm in Hm'. injection Hm' as <-.
    rewrite Hf in Hf'. injection Hf' as <-.
    exists m, factor. rewrite Heb, Het. repeat split; assumption.
  - intros ui Hin.
    assert (Hbodies : forall year,
      (exists y, Py.baseline_year ui year = Ok y) /\
      (exists y, Py.tech_upgrade_year ui year = Ok y)).
    { intros year. destruct (py_multiplier_defined_binary64 year) as [m Hm].
      exact (py_year_bodies_total ui year m Hin Hm). }
    destruct (py_for_in_total (Py.baseline_year ui) (range YEARS)
                (fun year _ => proj1 (Hbodies year)) Py.empty_series)
      as [sb Hsb].
    destruct (py_for_in_total (Py.tech_upgrade_year ui) (range YEARS)
                (fun year _ => proj2 (Hbodies year)) Py.empty_series)
      as [st Hst].
    exists sb, st. split; assumption.
  - intros ui Hin.
    exists (run_value ui), (scenario_of (series_of (baseline_locals ui))),
      (scenario_of (series_of (tech_upgrade_locals ui))).
    split; [now apply run_ok|].
    split; [now apply run_value_baseline|].
    split; [now apply run_value_tech_upgrade|].
    intros i Hi.
    unfold scenario_of, series_of; cbn [sc_emissions emissions].
    rewrite !nth_map_range by exact Hi.
    unfold tech_upgrade_locals, baseline_locals; cbn [e]. ring.
Qed.

Lemma tech_upgrade_emissions_scaled_witness :
  (exists baseline tech m factor,
      Py.year_loop (Py.baseline_year default_inputs_binary64) = Ok baseline /\
      Py.year_loop (Py.tech_upgrade_year default_inputs_binary64) = Ok tech /\
      Py.get_degradation_multiplier 3 = Ok m /\
      nth 3 (Py.emissions tech) Py.zero =
        Num.mul (Num.mul (Num.mul (Binary64.of_int 10000) m)
                         (Num.sub Py.one (Binary64.lit (1 # 10))))
                factor) /\
  (exists st baseline tech,
      run default_inputs = Ok st /\
      dict_get (scenarios st) "Baseline" = Some baseline /\
      dict_get (scenarios st) "Tech Upgrade" = Some tech /\
      nth 3 (sc_emissions tech) 0 ==
      (1 - (1 # 10)) * nth 3 (sc_emissions baseline) 0).
Proof.
  destruct tech_upgrade_emissions_scaled as (Hgen & Hfloat & Hexact).
  split.
  - destruct (Hfloat default_inputs_binary64) as (sb & st & Hb & Ht).
    + simpl. tauto.
    + destruct (Hgen _ _ default_inputs_binary64 sb st 3%nat Hb Ht)
        as (m & factor & Hm & _ & _ & He).
      * simpl. lia.
      * exists sb, st, m, factor. repeat split; assumption.
  - destruct (Hexact default_inputs) as (st & b & tu & Hrun & Hb & Ht & Hn).
    + simpl. tauto.
    + exists st, b, tu. repeat split; try assumption.
      apply (Hn 3%nat). simpl. lia.
Defined.

(** C10 fails as stated: in binary64, at the default inputs, the Tech
    Upgrade emissions of year index 3 and [(1 - 0.1)] times the Baseline
    emissions of that year are different numbers, one unit in the last
    place apart: the first is the [float] 28875215826000007 / 10^12, the
    second is the [float] 28875215826000003 / 10^12. *)
Lemma tech_upgrade_emissions_not_scaled :
  exists st baseline tech,
    Py.run default_inputs_binary64 = Ok st /\
    dict_get (Py.scenarios st) "Baseline" = Some baseline /\
    dict_get (Py.scenarios st) "Tech Upgrade" = Some tech /\
    Num.eqb (nth 3 (Py.sc_emissions tech) Py.zero)
            (Num.mul (Num.sub Py.one
                        (Py.ui_efficiency_gain default_inputs_binary64))
                     (nth 3 (Py.sc_emissions baseline) Py.zero)) = false /\
    Num.eqb (nth 3 (Py.sc_emissions tech) Py.zero)
            (Binary64.lit (28875215826000007 # 1000000000000)) = true /\
    Num.eqb (Num.mul (Num.sub Py.one
                        (Py.ui_efficiency_gain default_inputs_binary64))
                     (nth 3 (Py.sc_emissions baseline) Py.zero))
            (Binary64.lit (28875215826000003 # 1000000000000)) = true.
Proof.
  let v := eval vm_compute in (Py.run default_inputs_binary64) in
  match v with
  | Ok ?st => exists st
  end.
  do 2 eexists.
  split; [vm_compute; reflexivity|].
  split; [vm_compute; reflexivity|].
  split; [vm_compute; reflexivity|].
  split; [vm_compute; reflexivity|].
  split; vm_compute; reflexivity.
Qed.
